(** * Fixed Ratio Trading client library (FRT-js-libs): a shallow embedding

    The TypeScript sources under [src/] are embedded function by function.
    JavaScript values are modelled as they are at run time:

    - a [string] of the program is a list of UTF-16 code units ([JSString]);
    - a [Buffer] is a list of bytes, each a [Z] in [0, 255];
    - a [number] is an IEEE-754 binary64 value ([spec_float] with precision 53
      and maximal exponent 1024);
    - a [BN] (bn.js) is an unbounded integer, a [Z];
    - a [PublicKey] (web3.js) is the 256-bit integer it stores in [_bn];
    - a call that can raise returns a [Result].                                *)

From Stdlib Require Import ZArith List String Ascii Bool Lia.
From Stdlib Require Import Floats.SpecFloat.
From stdpp Require Import gmap strings.
Import ListNotations.
Local Open Scope Z_scope.

(* ===================================================================== *)
(** * The JavaScript run time                                              *)
(* ===================================================================== *)

(** ** Exceptions *)

Inductive Exn : Type :=
| AssertionFailed (msg : string)   (* bn.js [assert] *)
| TypeError (msg : string)         (* web3.js seed length check *)
| Error (msg : string).            (* plain [new Error(..)] *)

Inductive Result (A : Type) : Type :=
| Ok (a : A)
| Throw (e : Exn).
Arguments Ok {A} a.
Arguments Throw {A} e.

(** Sequencing: the first exception aborts the rest, [x ← c; k]. *)
#[global] Instance Result_bind : MBind Result := fun A B k r =>
  match r with
  | Ok a => k a
  | Throw e => Throw e
  end.

(** ** Strings and buffers *)

Definition JSString := list Z.
Definition Buffer := list Z.

(** A source literal, which is ASCII throughout the library. *)
Definition js (s : string) : JSString :=
  map (fun a => Z.of_nat (nat_of_ascii a)) (list_ascii_of_string s).

(** Comparison of two strings with [<]: by code units, a proper prefix first. *)
Fixpoint str_lt (a b : JSString) : bool :=
  match a, b with
  | _, [] => false
  | [], _ :: _ => true
  | x :: a', y :: b' =>
      if x <? y then true
      else if y <? x then false
      else str_lt a' b'
  end.

(** [s.slice(0, n)] for a non-negative integer [n]. *)
Definition slice0 (s : JSString) (n : nat) : JSString := firstn n s.

Fixpoint starts_with (p s : JSString) : bool :=
  match p, s with
  | [], _ => true
  | _ :: _, [] => false
  | x :: p', y :: s' => (x =? y) && starts_with p' s'
  end.

(** [s] without its prefix [p]. *)
Fixpoint drop_prefix (p s : JSString) : option JSString :=
  match p, s with
  | [], _ => Some s
  | _ :: _, [] => None
  | x :: p', y :: s' => if x =? y then drop_prefix p' s' else None
  end.

(** [s.includes(p)] *)
Fixpoint includes (s p : JSString) : bool :=
  starts_with p s ||
  match s with
  | [] => false
  | _ :: s' => includes s' p
  end.

(** The class [\s] of a regular expression, which is also what [trim] strips:
    WhiteSpace and LineTerminator. *)
Definition is_space (c : Z) : bool :=
  ((9 <=? c) && (c <=? 13)) || (c =? 32) || (c =? 160) || (c =? 5760)
  || ((8192 <=? c) && (c <=? 8202)) || (c =? 8232) || (c =? 8233)
  || (c =? 8239) || (c =? 8287) || (c =? 12288) || (c =? 65279).

(** The class [\d]. *)
Definition is_digit (c : Z) : bool := (48 <=? c) && (c <=? 57).

Fixpoint skip_spaces (s : JSString) : JSString :=
  match s with
  | c :: s' => if is_space c then skip_spaces s' else s
  | [] => []
  end.

Fixpoint take_digits (s : JSString) : JSString :=
  match s with
  | c :: s' => if is_digit c then c :: take_digits s' else []
  | [] => []
  end.

(** [s.match(/<label>\s*(\d+)/)]: the capture group of the leftmost match.
    Both quantifiers are greedy and neither can give back a character the
    other could use, so no backtracking happens inside one start position. *)
Definition match_here (label s : JSString) : option JSString :=
  match drop_prefix label s with
  | Some r =>
      match take_digits (skip_spaces r) with
      | [] => None
      | ds => Some ds
      end
  | None => None
  end.

Fixpoint match_number (label s : JSString) : option JSString :=
  match match_here label s with
  | Some ds => Some ds
  | None =>
      match s with
      | [] => None
      | _ :: s' => match_number label s'
      end
  end.

(** [s.split(sep)[1]] for a non-empty [sep]: the text between the first and
    the second occurrence of [sep]; [undefined] when [sep] does not occur. *)
Fixpoint after_first (sep s : JSString) : option JSString :=
  match drop_prefix sep s with
  | Some r => Some r
  | None =>
      match s with
      | [] => None
      | _ :: s' => after_first sep s'
      end
  end.

Fixpoint before_first (sep s : JSString) : JSString :=
  if starts_with sep s then []
  else
    match s with
    | [] => []
    | c :: s' => c :: before_first sep s'
    end.

Definition split_1 (sep s : JSString) : option JSString :=
  option_map (before_first sep) (after_first sep s).

Definition trim (s : JSString) : JSString :=
  rev (skip_spaces (rev (skip_spaces s))).

(** [parts.join(sep)] *)
Fixpoint join (sep : JSString) (parts : list JSString) : JSString :=
  match parts with
  | [] => []
  | [p] => p
  | p :: ps => p ++ sep ++ join sep ps
  end.

(** The value of a string of decimal digits. *)
Definition digits_value (ds : JSString) : Z :=
  fold_left (fun acc c => acc * 10 + (c - 48)) ds 0.

(** ** UTF-8 *)

Definition is_high_surrogate (c : Z) : bool := (55296 <=? c) && (c <=? 56319).
Definition is_low_surrogate (c : Z) : bool := (56320 <=? c) && (c <=? 57343).

Definition utf8_of_code_point (cp : Z) : Buffer :=
  if cp <? 128 then [cp]
  else if cp <? 2048 then [192 + cp / 64; 128 + cp mod 64]
  else if cp <? 65536 then
    [224 + cp / 4096; 128 + (cp / 64) mod 64; 128 + cp mod 64]
  else
    [240 + cp / 262144; 128 + (cp / 4096) mod 64;
     128 + (cp / 64) mod 64; 128 + cp mod 64].

(** U+FFFD in UTF-8. *)
Definition replacement_bytes : Buffer := [239; 191; 189].

(** [Buffer.from(s, 'utf8')]: a surrogate pair is one code point, a lone
    surrogate becomes U+FFFD. *)
Fixpoint utf8_encode (s : JSString) : Buffer :=
  match s with
  | [] => []
  | c :: rest =>
      if is_high_surrogate c then
        match rest with
        | d :: rest' =>
            if is_low_surrogate d then
              utf8_of_code_point (65536 + (c - 55296) * 1024 + (d - 56320))
                ++ utf8_encode rest'
            else replacement_bytes ++ utf8_encode rest
        | [] => replacement_bytes
        end
      else if is_low_surrogate c then replacement_bytes ++ utf8_encode rest
      else utf8_of_code_point c ++ utf8_encode rest
  end.

(** [buf.toString('utf8')]: the decoder of the Encoding Standard, which
    replaces every maximal ill-formed subsequence by one U+FFFD. *)
Record utf8_state : Type := {
  u_needed : Z;      (* continuation bytes still expected *)
  u_cp : Z;          (* code point accumulated so far *)
  u_lower : Z;       (* bounds of the next continuation byte *)
  u_upper : Z
}.

Definition utf8_start : utf8_state :=
  {| u_needed := 0; u_cp := 0; u_lower := 128; u_upper := 191 |}.

Definition code_units (cp : Z) : JSString :=
  if cp <? 65536 then [cp]
  else [55296 + (cp - 65536) / 1024; 56320 + (cp - 65536) mod 1024].

(** One byte seen with no sequence in progress. *)
Definition utf8_lead (b : Z) : JSString * utf8_state :=
  if b <=? 127 then ([b], utf8_start)
  else if (194 <=? b) && (b <=? 223) then
    ([], {| u_needed := 1; u_cp := Z.land b 31; u_lower := 128; u_upper := 191 |})
  else if (224 <=? b) && (b <=? 239) then
    ([], {| u_needed := 2; u_cp := Z.land b 15;
            u_lower := if b =? 224 then 160 else 128;
            u_upper := if b =? 237 then 159 else 191 |})
  else if (240 <=? b) && (b <=? 244) then
    ([], {| u_needed := 3; u_cp := Z.land b 7;
            u_lower := if b =? 240 then 144 else 128;
            u_upper := if b =? 244 then 143 else 191 |})
  else ([65533], utf8_start).

Fixpoint utf8_decode_from (st : utf8_state) (bs : Buffer) : JSString :=
  match bs with
  | [] => if u_needed st =? 0 then [] else [65533]
  | b :: rest =>
      if u_needed st =? 0 then
        let '(out, st') := utf8_lead b in out ++ utf8_decode_from st' rest
      else if (u_lower st <=? b) && (b <=? u_upper st) then
        let cp := Z.shiftl (u_cp st) 6 + Z.land b 63 in
        if u_needed st =? 1 then code_units cp ++ utf8_decode_from utf8_start rest
        else
          utf8_decode_from
            {| u_needed := u_needed st - 1; u_cp := cp;
               u_lower := 128; u_upper := 191 |} rest
      else
        (* ill-formed: U+FFFD, and the byte is read again as a first byte *)
        let '(out, st') := utf8_lead b in
        65533 :: out ++ utf8_decode_from st' rest
  end.

Definition Buffer_toString (b : Buffer) : JSString := utf8_decode_from utf8_start b.

(** [a < b] on two objects converts both to primitives first: a Buffer has
    no primitive [valueOf], so [toString()] is called and the two UTF-8
    decoded texts are compared as strings. *)
Definition Buffer_lt (a b : Buffer) : bool :=
  str_lt (Buffer_toString a) (Buffer_toString b).

(** ** Numbers: IEEE-754 binary64 *)

Definition number := spec_float.

Definition Z2number (z : Z) : number := binary_normalize 53 1024 z 0 false.
Definition num_sub : number -> number -> number := SFsub 53 1024.
Definition num_mul : number -> number -> number := SFmul 53 1024.
Definition num_div : number -> number -> number := SFdiv 53 1024.
Definition num_lt : number -> number -> bool := SFltb.

(** [ToBoolean] on a number: [0], [-0] and [NaN] are falsy. *)
Definition truthy (x : number) : bool :=
  match x with
  | S754_zero _ | S754_nan => false
  | _ => true
  end.

(** The integer part of a finite number, rounded down ([floorZ]) or towards
    zero ([truncZ]). *)
Definition floorZ (s : bool) (m : positive) (e : Z) : Z :=
  if 0 <=? e then cond_Zopp s (Zpos m * 2 ^ e)
  else
    let q := Zpos m / 2 ^ (- e) in
    let r := Zpos m mod 2 ^ (- e) in
    if s then - (q + (if r =? 0 then 0 else 1)) else q.

Definition truncZ (s : bool) (m : positive) (e : Z) : Z :=
  if 0 <=? e then cond_Zopp s (Zpos m * 2 ^ e)
  else cond_Zopp s (Zpos m / 2 ^ (- e)).

Definition Math_floor (x : number) : number :=
  match x with
  | S754_finite s m e => Z2number (floorZ s m e)
  | _ => x
  end.

(** [Math.pow(10, d)] for a non-negative integer [d]: the double nearest to
    [10^d] (exact up to [d = 22]). *)
Definition Math_pow10 (d : nat) : number := Z2number (10 ^ Z.of_nat d).

(** ** bn.js *)

Module BN.

Definition mul (a b : Z) : Z := a * b.

(** [div] goes through [divmod], which starts with [assert(!num.isZero())]
    and truncates towards zero. *)
Definition div (a b : Z) : Result Z :=
  if b =? 0 then Throw (AssertionFailed "Assertion failed")
  else Ok (Z.quot a b).

Definition pow (a b : Z) : Z := a ^ b.
Definition eq (a b : Z) : bool := a =? b.
Definition lt (a b : Z) : bool := a <? b.
Definition lte (a b : Z) : bool := a <=? b.
Definition gt (a b : Z) : bool := b <? a.
Definition gte (a b : Z) : bool := b <=? a.

Definition bitLength (a : Z) : Z :=
  if a =? 0 then 0 else Z.log2 (Z.abs a) + 1.

Definition byteLength (a : Z) : Z := (bitLength a + 7) / 8.

(** Little-endian bytes of a non-negative integer, [len] of them. *)
Fixpoint le_bytes (len : nat) (a : Z) : Buffer :=
  match len with
  | O => []
  | S len' => a mod 256 :: le_bytes len' (a / 256)
  end.

(** [toArrayLike(Buffer, 'le', len)]: the magnitude is written, the sign is
    not; [assert(byteLength <= reqLength)]. *)
Definition toArrayLike_le (a : Z) (len : nat) : Result Buffer :=
  if byteLength a <=? Z.of_nat len then Ok (le_bytes len (Z.abs a))
  else Throw (AssertionFailed "byte array longer than desired length").

(** [new BN(number)]: the constructor passes [number || 0] on, so NaN is
    read as 0 like the two zeros; [_initNumber] keeps the integer part of a
    number below [2^53] in magnitude and asserts otherwise. *)
Definition ofNumber (x : number) : Result Z :=
  match x with
  | S754_zero _ | S754_nan => Ok 0
  | S754_finite s m e =>
      let v := truncZ s m e in
      if Z.abs v <? 2 ^ 53 then Ok v
      else Throw (AssertionFailed "Assertion failed")
  | S754_infinity _ => Throw (AssertionFailed "Assertion failed")
  end.

(** [toNumber]: at most 53 bits, or an assertion fails. *)
Definition toNumber (a : Z) : Result number :=
  if bitLength a <=? 53 then Ok (Z2number a)
  else Throw (AssertionFailed "Number can only safely store up to 53 bits").

End BN.

(** [buf.writeUInt32LE(v, 0)] on [Buffer.alloc(4)] *)
Definition writeUInt32LE (v : Z) : Result Buffer :=
  if (0 <=? v) && (v <? 2 ^ 32) then Ok (BN.le_bytes 4 v)
  else Throw (Error "ERR_OUT_OF_RANGE").

(* ===================================================================== *)
(** * web3.js: public keys                                                 *)
(* ===================================================================== *)

Record PublicKey : Type := mkPublicKey { _bn : Z }.

Definition wf_key (k : PublicKey) : Prop := 0 <= _bn k < 2 ^ 256.

(** Big-endian bytes, [len] of them. *)
Definition be_bytes (len : nat) (a : Z) : Buffer := rev (BN.le_bytes len a).

Definition toBuffer (k : PublicKey) : Buffer := be_bytes 32 (_bn k).

Definition equals (a b : PublicKey) : bool := BN.eq (_bn a) (_bn b).

(** Value of a big-endian byte sequence. *)
Definition be_value (bs : Buffer) : Z :=
  fold_left (fun acc b => acc * 256 + b) bs 0.

(** ** Base58 text of a key (bs58) *)

Definition ALPHABET : string :=
  "123456789ABCDEFGHJKLMNPQRSTUVWXYZabcdefghijkmnopqrstuvwxyz".

Definition b58_char (d : Z) : ascii :=
  nth (Z.to_nat d) (list_ascii_of_string ALPHABET) "1"%char.

Fixpoint index_in (alphabet : list ascii) (c : ascii) (i : Z) : option Z :=
  match alphabet with
  | [] => None
  | a :: rest => if Ascii.eqb a c then Some i else index_in rest c (i + 1)
  end.

Definition b58_index (c : ascii) : option Z :=
  index_in (list_ascii_of_string ALPHABET) c 0.

(** Base-58 digits of [n], most significant first, put in front of [acc]. *)
Fixpoint b58_digits (fuel : nat) (n : Z) (acc : list Z) : list Z :=
  match fuel with
  | O => acc
  | S fuel' =>
      if n <=? 0 then acc
      else b58_digits fuel' (n / 58) (n mod 58 :: acc)
  end.

Fixpoint leading_zeros (bs : Buffer) : nat :=
  match bs with
  | b :: rest => if b =? 0 then S (leading_zeros rest) else O
  | [] => O
  end.

(** [bs58.encode]: one ['1'] per leading zero byte, then the digits of the
    number the bytes spell. Two digits per byte are always enough. *)
Definition bs58_encode (bs : Buffer) : string :=
  string_of_list_ascii
    (repeat "1"%char (leading_zeros bs)
     ++ map b58_char (b58_digits (2 * length bs) (be_value bs) [])).

Definition toBase58 (k : PublicKey) : string := bs58_encode (toBuffer k).

Fixpoint b58_value (cs : list ascii) (acc : Z) : option Z :=
  match cs with
  | [] => Some acc
  | c :: rest =>
      match b58_index c with
      | Some d => b58_value rest (acc * 58 + d)
      | None => None
      end
  end.

Fixpoint leading_ones (cs : list ascii) : nat :=
  match cs with
  | c :: rest => if Ascii.eqb c "1"%char then S (leading_ones rest) else O
  | [] => O
  end.

Definition bs58_decode (s : string) : Result Buffer :=
  let cs := list_ascii_of_string s in
  match b58_value cs 0 with
  | Some v =>
      Ok (repeat 0 (leading_ones cs) ++ be_bytes (Z.to_nat (BN.byteLength v)) v)
  | None => Throw (Error "Non-base58 character")
  end.

(** [new PublicKey(text)] *)
Definition PublicKey_ofBase58 (s : string) : Result PublicKey :=
  decoded ← bs58_decode s;
  if (length decoded =? 32)%nat then Ok (mkPublicKey (be_value decoded))
  else Throw (Error "Invalid public key input").

(** [new PublicKey(bytes)] *)
Definition PublicKey_ofBytes (bs : Buffer) : Result PublicKey :=
  let bn := be_value bs in
  if 32 <? BN.byteLength bn then Throw (Error "Invalid public key input")
  else Ok (mkPublicKey bn).

(** A key literal of the sources; the constructor does not raise on any of
    the literals used. *)
Definition key_literal (s : string) : PublicKey :=
  match PublicKey_ofBase58 s with
  | Ok k => k
  | Throw _ => mkPublicKey 0
  end.

(** ** SHA-256 (FIPS 180-4), as used by [createProgramAddressSync] *)

Module SHA256.

Definition mask32 : Z := 4294967295.
Definition add32 (a b : Z) : Z := Z.land (a + b) mask32.
Definition rotr (n x : Z) : Z :=
  Z.lor (Z.shiftr x n) (Z.land (Z.shiftl x (32 - n)) mask32).
Definition Ch (x y z : Z) : Z :=
  Z.lxor (Z.land x y) (Z.land (Z.lxor x mask32) z).
Definition Maj (x y z : Z) : Z :=
  Z.lxor (Z.lxor (Z.land x y) (Z.land x z)) (Z.land y z).
Definition Sig0 (x : Z) : Z := Z.lxor (Z.lxor (rotr 2 x) (rotr 13 x)) (rotr 22 x).
Definition Sig1 (x : Z) : Z := Z.lxor (Z.lxor (rotr 6 x) (rotr 11 x)) (rotr 25 x).
Definition ssig0 (x : Z) : Z := Z.lxor (Z.lxor (rotr 7 x) (rotr 18 x)) (Z.shiftr x 3).
Definition ssig1 (x : Z) : Z := Z.lxor (Z.lxor (rotr 17 x) (rotr 19 x)) (Z.shiftr x 10).

Definition K : list Z :=
  [1116352408; 1899447441; 3049323471; 3921009573; 961987163; 1508970993;
   2453635748; 2870763221; 3624381080; 310598401; 607225278; 1426881987;
   1925078388; 2162078206; 2614888103; 3248222580; 3835390401; 4022224774;
   264347078; 604807628; 770255983; 1249150122; 1555081692; 1996064986;
   2554220882; 2821834349; 2952996808; 3210313671; 3336571891; 3584528711;
   113926993; 338241895; 666307205; 773529912; 1294757372; 1396182291;
   1695183700; 1986661051; 2177026350; 2456956037; 2730485921; 2820302411;
   3259730800; 3345764771; 3516065817; 3600352804; 4094571909; 275423344;
   430227734; 506948616; 659060556; 883997877; 958139571; 1322822218;
   1537002063; 1747873779; 1955562222; 2024104815; 2227730452; 2361852424;
   2428436474; 2756734187; 3204031479; 3329325298].

Definition H0 : list Z :=
  [1779033703; 3144134277; 1013904242; 2773480762;
   1359893119; 2600822924; 528734635; 1541459225].

Definition pad (msg : Buffer) : Buffer :=
  let len := Z.of_nat (length msg) in
  msg ++ [128] ++ repeat 0 (Z.to_nat ((55 - len) mod 64)) ++ be_bytes 8 (8 * len).

(** Consecutive pieces of [n] items. *)
Fixpoint chunks (fuel n : nat) (bs : list Z) : list (list Z) :=
  match fuel with
  | O => []
  | S fuel' =>
      match bs with
      | [] => []
      | _ => firstn n bs :: chunks fuel' n (skipn n bs)
      end
  end.

(** The message schedule, newest word first while it is extended. *)
Fixpoint extend (n : nat) (r : list Z) : list Z :=
  match n with
  | O => r
  | S n' =>
      let w := add32 (add32 (ssig1 (nth 1 r 0)) (nth 6 r 0))
                     (add32 (ssig0 (nth 14 r 0)) (nth 15 r 0)) in
      extend n' (w :: r)
  end.

Definition schedule (block : Buffer) : list Z :=
  rev (extend 48 (rev (map be_value (chunks 16 4 block)))).

Definition round (st : list Z) (kw : Z * Z) : list Z :=
  match st with
  | [a; b; c; d; e; f; g; h] =>
      let t1 := add32 (add32 (add32 (add32 h (Sig1 e)) (Ch e f g)) (fst kw)) (snd kw) in
      let t2 := add32 (Sig0 a) (Maj a b c) in
      [add32 t1 t2; a; b; c; add32 d t1; e; f; g]
  | _ => st
  end.

Definition compress (H : list Z) (block : Buffer) : list Z :=
  let st := fold_left round (combine K (schedule block)) H in
  map (fun p => add32 (fst p) (snd p)) (combine H st).

Definition sha256 (msg : Buffer) : Buffer :=
  let padded := pad msg in
  let H := fold_left compress (chunks (length padded) 64 padded) H0 in
  concat (map (be_bytes 4) H).

End SHA256.

(** ** Ed25519 point decoding, as used by [isOnCurve] *)

Module Ed25519.

(** The field prime [2^255 - 19]. *)
Definition P : Z :=
  57896044618658097711785492504343953926634992332820282019728792003956564819949.
Definition D : Z :=
  37095705934669439343138083508754565189542113879843219016388785533085940283555.
Definition SQRT_M1 : Z :=
  19681161376707505956807079304988542015446066515923890162744021073123829784752.

(** [pow2(x, power, P)]: [power] squarings in a row. *)
Fixpoint pow2 (x : Z) (power : nat) : Z :=
  match power with
  | O => x
  | S power' => pow2 ((x * x) mod P) power'
  end.

(** [ed25519_pow_2_252_3(x).pow_p_5_8]: [x] to the power [(P - 5) / 8], which
    is [2^252 - 3], along the addition chain of the library. *)
Definition pow_2_252_3 (x : Z) : Z :=
  let x2 := (x * x) mod P in
  let b2 := (x2 * x) mod P in
  let b4 := (pow2 b2 2 * b2) mod P in
  let b5 := (pow2 b4 1 * x) mod P in
  let b10 := (pow2 b5 5 * b5) mod P in
  let b20 := (pow2 b10 10 * b10) mod P in
  let b40 := (pow2 b20 20 * b20) mod P in
  let b80 := (pow2 b40 40 * b40) mod P in
  let b160 := (pow2 b80 80 * b80) mod P in
  let b240 := (pow2 b160 80 * b80) mod P in
  let b250 := (pow2 b240 10 * b10) mod P in
  (pow2 b250 2 * x) mod P.

(** A square root of [u/v], when there is one. *)
Definition uvRatio (u v : Z) : bool * Z :=
  let v3 := (v * v * v) mod P in
  let v7 := (v3 * v3 * v) mod P in
  let pow := pow_2_252_3 (u * v7) in
  let x := (u * v3 * pow) mod P in
  let vx2 := (v * x * x) mod P in
  let root1 := x in
  let root2 := (x * SQRT_M1) mod P in
  let useRoot1 := vx2 =? u in
  let useRoot2 := vx2 =? (- u) mod P in
  let noRoot := vx2 =? (- u * SQRT_M1) mod P in
  let x := if useRoot1 then root1 else x in
  let x := if useRoot2 || noRoot then root2 else x in
  let x := if Z.odd x then (- x) mod P else x in
  (useRoot1 || useRoot2, x).

Definition le_value (bs : Buffer) : Z := be_value (rev bs).

(** [2^255 - 1] *)
Definition MASK255 : Z :=
  57896044618658097711785492504343953926634992332820282019728792003956564819967.

(** [Point.fromHex(bytes)] succeeds. *)
Definition decodes (bs : Buffer) : bool :=
  let lastByte := List.last bs 0 in
  let y := Z.land (le_value bs) MASK255 in
  if negb (y <? P) then false
  else
    let y2 := (y * y) mod P in
    let u := (y2 - 1) mod P in
    let v := (D * y2 + 1) mod P in
    let '(isValid, x) := uvRatio u v in
    if negb isValid then false
    else
      let isLastByteOdd := negb (Z.land lastByte 128 =? 0) in
      negb ((x =? 0) && isLastByteOdd).

End Ed25519.

Definition isOnCurve (publicKey : Buffer) : bool :=
  (length publicKey =? 32)%nat && Ed25519.decodes publicKey.

(** ** Program-derived addresses *)

Definition MAX_SEED_LENGTH : nat := 32.

Definition createProgramAddressSync
    (seeds : list Buffer) (programId : PublicKey) : Result PublicKey :=
  if existsb (fun seed => (MAX_SEED_LENGTH <? length seed)%nat) seeds then
    Throw (TypeError "Max seed length exceeded")
  else
    let buffer := concat seeds ++ toBuffer programId
                  ++ utf8_encode (js "ProgramDerivedAddress") in
    let publicKeyBytes := SHA256.sha256 buffer in
    if isOnCurve publicKeyBytes then
      Throw (Error "Invalid seeds, address must fall off the curve")
    else PublicKey_ofBytes publicKeyBytes.

(** The loop [while (nonce != 0)] that starts at 255: a [TypeError] is
    passed on, any other failure moves to the next nonce. *)
Fixpoint findProgramAddress_from
    (nonce : nat) (seeds : list Buffer) (programId : PublicKey)
    : Result (PublicKey * Z) :=
  match nonce with
  | O => Throw (Error "Unable to find a viable program address nonce")
  | S nonce' =>
      match createProgramAddressSync (seeds ++ [[Z.of_nat nonce]]) programId with
      | Ok address => Ok (address, Z.of_nat nonce)
      | Throw (TypeError msg) => Throw (TypeError msg)
      | Throw _ => findProgramAddress_from nonce' seeds programId
      end
  end.

Definition findProgramAddressSync
    (seeds : list Buffer) (programId : PublicKey) : Result (PublicKey * Z) :=
  findProgramAddress_from 255 seeds programId.

(* ===================================================================== *)
(** * src/types.ts                                                         *)
(* ===================================================================== *)

Record PoolCreationParams : Type := {
  pc_tokenAMint : PublicKey;
  pc_tokenBMint : PublicKey;
  pc_ratioA : Z;
  pc_ratioB : Z;
  pc_userAuthority : PublicKey
}.

Record SwapParams : Type := {
  sw_poolStatePDA : PublicKey;
  sw_amountIn : Z;
  sw_expectedAmountOut : Z;
  sw_inputTokenMint : PublicKey;
  sw_userAuthority : PublicKey;
  sw_userInputAccount : PublicKey;
  sw_userOutputAccount : PublicKey;
  sw_slippageTolerance : option number
}.

Record ValidationResult : Type := {
  isValid : bool;
  errors : list string
}.

(** [errors.push(msg)] under a condition. *)
Definition push_if (c : bool) (msg : string) (errs : list string) : list string :=
  if c then errs ++ [msg] else errs.

Definition finish (errs : list string) : ValidationResult :=
  {| isValid := (length errs =? 0)%nat; errors := errs |}.

Record DonationParams : Type := {
  dn_donor : PublicKey;
  dn_amount : Z;
  dn_message : option JSString
}.

Record TreasuryInfo : Type := {
  totalBalance : Z;
  totalFeesCollected : Z;
  lastWithdrawalTime : Z;
  withdrawalCount : number;
  donationCount : number;
  totalDonations : Z
}.

(** web3.js instruction values *)
Record AccountMeta : Type := {
  pubkey : PublicKey;
  isSigner : bool;
  isWritable : bool
}.

Record TransactionInstruction : Type := {
  keys : list AccountMeta;
  programId : PublicKey;
  data : Buffer
}.

(* ===================================================================== *)
(** * src/constants.ts                                                     *)
(* ===================================================================== *)

Definition PROGRAM_ID : PublicKey :=
  key_literal "4aeVqtWhrUh6wpX8acNj2hpWXKEQwxjA3PYb2sHhNyCn".

Module PoolInstruction.
Definition InitializeProgram : Z := 0.
Definition PauseSystem : Z := 1.
Definition UnpauseSystem : Z := 2.
Definition GetVersion : Z := 14.
Definition InitializePool : Z := 3.
Definition PausePool : Z := 4.
Definition UnpausePool : Z := 5.
Definition UpdatePoolFees : Z := 6.
Definition Deposit : Z := 7.
Definition Withdraw : Z := 8.
Definition Swap : Z := 9.
Definition SetSwapOwnerOnly : Z := 10.
Definition WithdrawTreasuryFees : Z := 11.
Definition GetTreasuryInfo : Z := 12.
Definition DonateSol : Z := 13.
Definition ConsolidatePoolFees : Z := 15.
End PoolInstruction.

Module SEEDS.
Definition SYSTEM_STATE : JSString := js "system_state".
Definition MAIN_TREASURY : JSString := js "main_treasury".
Definition POOL_STATE_V2 : JSString := js "pool_state_v2".
Definition TOKEN_A_VAULT : JSString := js "token_a_vault".
Definition TOKEN_B_VAULT : JSString := js "token_b_vault".
Definition LP_TOKEN_A_MINT : JSString := js "lp_token_a_mint".
Definition LP_TOKEN_B_MINT : JSString := js "lp_token_b_mint".
End SEEDS.

(** Keys of the programs the instructions refer to (web3.js, spl-token). *)
Definition SystemProgram_programId : PublicKey :=
  key_literal "11111111111111111111111111111111".
Definition TOKEN_PROGRAM_ID : PublicKey :=
  key_literal "TokenkegQfeZyiNwAJbNbGKPFXCWuBvf9Ss623VQ5DA".

(* ===================================================================== *)
(** * src/utils.ts: ratio math                                             *)
(* ===================================================================== *)

Definition toBasisPoints (amount : number) (decimals : nat) : Result Z :=
  let multiplier := Math_pow10 decimals in
  BN.ofNumber (Math_floor (num_mul amount multiplier)).

Definition fromBasisPoints (basisPoints : Z) (decimals : nat) : Result number :=
  let divisor := Math_pow10 decimals in
  n ← BN.toNumber basisPoints;
  Ok (num_div n divisor).

Definition calculateRequiredLiquidity
    (depositAmount depositTokenRatio otherTokenRatio : Z) : Result Z :=
  BN.div (BN.mul depositAmount otherTokenRatio) depositTokenRatio.

Definition calculateSwapOutput (inputAmount inputRatio outputRatio : Z) : Result Z :=
  BN.div (BN.mul inputAmount outputRatio) inputRatio.

Definition applySlippage (expectedAmount : Z) (slippageTolerance : number) : Result Z :=
  let tolerance := Math_floor (num_mul (num_sub (Z2number 100) slippageTolerance) (Z2number 100)) in
  t ← BN.ofNumber tolerance;
  BN.div (BN.mul expectedAmount t) 10000.

(* ===================================================================== *)
(** * src/utils.ts: address derivation and message encoding                *)
(* ===================================================================== *)

(** [Buffer.from(text)], UTF-8 by default *)
Definition Buffer_from (s : JSString) : Buffer := utf8_encode s.

Definition normalizeTokenOrder (tokenAMint tokenBMint : PublicKey)
    : PublicKey * PublicKey :=
  if Buffer_lt (toBuffer tokenAMint) (toBuffer tokenBMint)
  then (tokenAMint, tokenBMint)
  else (tokenBMint, tokenAMint).

Definition deriveSystemStatePDA : Result (PublicKey * Z) :=
  findProgramAddressSync [Buffer_from SEEDS.SYSTEM_STATE] PROGRAM_ID.

Definition deriveMainTreasuryPDA : Result (PublicKey * Z) :=
  findProgramAddressSync [Buffer_from SEEDS.MAIN_TREASURY] PROGRAM_ID.

(** The seed list [derivePoolStatePDA] hands to [findProgramAddressSync]. *)
Definition poolStateSeeds (tokenAMint tokenBMint : PublicKey) (ratioA ratioB : Z)
    : Result (list Buffer) :=
  let '(mintA, mintB) := normalizeTokenOrder tokenAMint tokenBMint in
  a ← BN.toArrayLike_le ratioA 8;
  b ← BN.toArrayLike_le ratioB 8;
  Ok [Buffer_from SEEDS.POOL_STATE_V2; toBuffer mintA; toBuffer mintB; a; b].

Definition derivePoolStatePDA (tokenAMint tokenBMint : PublicKey) (ratioA ratioB : Z)
    : Result (PublicKey * Z) :=
  seeds ← poolStateSeeds tokenAMint tokenBMint ratioA ratioB;
  findProgramAddressSync seeds PROGRAM_ID.

Definition encodeMessage (message : JSString) (maxLength : nat) : Result Buffer :=
  let truncatedMessage := slice0 message maxLength in
  let messageBuffer := Buffer_from truncatedMessage in
  lengthBuffer ← writeUInt32LE (Z.of_nat (length messageBuffer));
  Ok (lengthBuffer ++ messageBuffer).

(* ===================================================================== *)
(** * src/instructions/liquidity.ts                                        *)
(* ===================================================================== *)

Definition estimateLPTokensFromDeposit
    (depositAmount currentPoolBalance currentLpSupply : Z) : Result Z :=
  if BN.eq currentLpSupply 0 || BN.eq currentPoolBalance 0 then
    Ok depositAmount
  else
    BN.div (BN.mul depositAmount currentLpSupply) currentPoolBalance.

Definition estimateTokensFromWithdraw
    (lpAmount currentPoolBalance currentLpSupply : Z) : Result Z :=
  if BN.eq currentLpSupply 0 then
    Ok 0
  else
    BN.div (BN.mul lpAmount currentPoolBalance) currentLpSupply.

(* ===================================================================== *)
(** * src/instructions/pool.ts and swap.ts: validators                     *)
(* ===================================================================== *)

Definition validatePoolCreationParams (params : PoolCreationParams) : ValidationResult :=
  let errors := [] in
  let errors := push_if (BN.lte (pc_ratioA params) 0)
                        "Ratio A must be positive" errors in
  let errors := push_if (BN.lte (pc_ratioB params) 0)
                        "Ratio B must be positive" errors in
  let errors := push_if (equals (pc_tokenAMint params) (pc_tokenBMint params))
                        "Token A and Token B must be different" errors in
  let maxRatio := BN.pow 10 18 in
  let errors := push_if (BN.gte (pc_ratioA params) maxRatio
                         || BN.gte (pc_ratioB params) maxRatio)
                        "Ratios too large (max 10^18)" errors in
  finish errors.

Definition validateSwapParams (params : SwapParams) : ValidationResult :=
  let errors := [] in
  let errors := push_if (BN.lte (sw_amountIn params) 0)
                        "Input amount must be positive" errors in
  let errors := push_if (BN.lte (sw_expectedAmountOut params) 0)
                        "Expected output amount must be positive" errors in
  let errors :=
    match sw_slippageTolerance params with
    | Some s =>
        push_if (num_lt s (Z2number 0) || num_lt (Z2number 50) s)
                "Slippage tolerance must be between 0 and 50 percent" errors
    | None => errors
    end in
  let maxSwap := BN.pow 10 15 in
  let errors := push_if (BN.gte (sw_amountIn params) maxSwap)
                        "Swap amount too large" errors in
  finish errors.

(* ===================================================================== *)
(** * src/instructions/swap.ts: the instruction builder                    *)
(* ===================================================================== *)

Definition createSwapInstruction (params : SwapParams) : Result TransactionInstruction :=
  '(systemStatePDA, _) ← deriveSystemStatePDA;
  '(mainTreasuryPDA, _) ← deriveMainTreasuryPDA;
  (* [params.slippageTolerance || 1] *)
  let slippageTolerance :=
    match sw_slippageTolerance params with
    | Some s => if truthy s then s else Z2number 1
    | None => Z2number 1
    end in
  minAmountOut ← applySlippage (sw_expectedAmountOut params) slippageTolerance;
  amountInBytes ← BN.toArrayLike_le (sw_amountIn params) 8;
  minAmountOutBytes ← BN.toArrayLike_le minAmountOut 8;
  let instructionData :=
    [PoolInstruction.Swap] ++ toBuffer (sw_inputTokenMint params)
      ++ amountInBytes ++ minAmountOutBytes in
  Ok {| keys :=
          [ {| pubkey := sw_userAuthority params; isSigner := true; isWritable := true |};
            {| pubkey := systemStatePDA; isSigner := false; isWritable := false |};
            {| pubkey := sw_poolStatePDA params; isSigner := false; isWritable := true |};
            {| pubkey := sw_userInputAccount params; isSigner := false; isWritable := true |};
            {| pubkey := sw_userOutputAccount params; isSigner := false; isWritable := true |};
            {| pubkey := TOKEN_PROGRAM_ID; isSigner := false; isWritable := false |};
            {| pubkey := SystemProgram_programId; isSigner := false; isWritable := false |};
            {| pubkey := mainTreasuryPDA; isSigner := false; isWritable := true |};
            {| pubkey := sw_inputTokenMint params; isSigner := false; isWritable := false |} ];
        programId := PROGRAM_ID;
        data := instructionData |}.

(* ===================================================================== *)
(** * src/instructions/treasury.ts                                         *)
(* ===================================================================== *)

Definition createDonateSolInstruction (params : DonationParams)
    : Result TransactionInstruction :=
  let donor := dn_donor params in
  let amount := dn_amount params in
  let message := match dn_message params with Some m => m | None => [] end in
  '(systemStatePDA, _) ← deriveSystemStatePDA;
  '(mainTreasuryPDA, _) ← deriveMainTreasuryPDA;
  messageBuffer ← encodeMessage message 200;
  amountBytes ← BN.toArrayLike_le amount 8;
  let instructionData := [PoolInstruction.DonateSol] ++ amountBytes ++ messageBuffer in
  Ok {| keys :=
          [ {| pubkey := donor; isSigner := true; isWritable := true |};
            {| pubkey := mainTreasuryPDA; isSigner := false; isWritable := true |};
            {| pubkey := systemStatePDA; isSigner := false; isWritable := false |};
            {| pubkey := SystemProgram_programId; isSigner := false; isWritable := false |} ];
        programId := PROGRAM_ID;
        data := instructionData |}.

Definition createConsolidatePoolFeesInstruction (poolStatePDAs : list PublicKey)
    : Result TransactionInstruction :=
  '(systemStatePDA, _) ← deriveSystemStatePDA;
  '(mainTreasuryPDA, _) ← deriveMainTreasuryPDA;
  let limitedPools := firstn 20 poolStatePDAs in
  poolCountBuffer ← writeUInt32LE (Z.of_nat (length limitedPools));
  let instructionData := [PoolInstruction.ConsolidatePoolFees] ++ poolCountBuffer in
  let accounts :=
    [ {| pubkey := systemStatePDA; isSigner := false; isWritable := false |};
      {| pubkey := mainTreasuryPDA; isSigner := false; isWritable := true |};
      {| pubkey := SystemProgram_programId; isSigner := false; isWritable := false |} ]
    ++ map (fun poolPDA =>
              {| pubkey := poolPDA; isSigner := false; isWritable := true |})
           limitedPools in
  Ok {| keys := accounts; programId := PROGRAM_ID; data := instructionData |}.

Definition validateConsolidationParams (poolStatePDAs : list PublicKey)
    : ValidationResult :=
  let errors := [] in
  let errors := push_if (length poolStatePDAs =? 0)%nat
                        "At least one pool must be specified" errors in
  let errors := push_if (20 <? length poolStatePDAs)%nat
                        "Maximum 20 pools per consolidation transaction" errors in
  let uniquePools : gset string := list_to_set (map toBase58 poolStatePDAs) in
  let errors := push_if (negb (size uniquePools =? length poolStatePDAs)%nat)
                        "Duplicate pools found in consolidation list" errors in
  finish errors.

(* ===================================================================== *)
(** * src/instructions/public.ts: reading state back from logs             *)
(* ===================================================================== *)

(** [new BN(text)] and [parseInt(text)] on a capture of [\d+] *)
Definition BN_ofString (ds : JSString) : Z := digits_value ds.
Definition parseInt (ds : JSString) : number := Z2number (digits_value ds).

(** The object [info] while the lines are read: a field is set or not. *)
Record PartialTreasuryInfo : Type := {
  p_totalBalance : option Z;
  p_totalFeesCollected : option Z;
  p_lastWithdrawalTime : option Z;
  p_withdrawalCount : option number;
  p_donationCount : option number;
  p_totalDonations : option Z
}.

Definition no_info : PartialTreasuryInfo :=
  {| p_totalBalance := None; p_totalFeesCollected := None;
     p_lastWithdrawalTime := None; p_withdrawalCount := None;
     p_donationCount := None; p_totalDonations := None |}.

(** [if (log.includes(label)) { const match = log.match(/label\s*(\d+)/); .. }] *)
Definition scan (label log : JSString) : option JSString :=
  if includes log label then match_number label log else None.

(** [if (match) info.field = conv(match[1])] *)
Definition assign {A : Type} (old : option A) (conv : JSString -> A)
    (m : option JSString) : option A :=
  match m with
  | Some m1 => Some (conv m1)
  | None => old
  end.

Definition treasury_line (info : PartialTreasuryInfo) (log : JSString)
    : PartialTreasuryInfo :=
  {| p_totalBalance :=
       assign (p_totalBalance info) BN_ofString (scan (js "Total Balance:") log);
     p_totalFeesCollected :=
       assign (p_totalFeesCollected info) BN_ofString
              (scan (js "Total Fees Collected:") log);
     p_lastWithdrawalTime :=
       assign (p_lastWithdrawalTime info) BN_ofString
              (scan (js "Last Withdrawal:") log);
     p_withdrawalCount :=
       assign (p_withdrawalCount info) parseInt (scan (js "Withdrawal Count:") log);
     p_donationCount :=
       assign (p_donationCount info) parseInt (scan (js "Donation Count:") log);
     p_totalDonations :=
       assign (p_totalDonations info) BN_ofString (scan (js "Total Donations:") log) |}.

(** [info.field || new BN(0)]: a BN object is always truthy. *)
Definition or_BN0 (v : option Z) : Z :=
  match v with
  | Some x => x
  | None => 0
  end.

(** [info.field || 0] on a number *)
Definition or_0 (v : option number) : number :=
  match v with
  | Some x => if truthy x then x else Z2number 0
  | None => Z2number 0
  end.

(** The loop [for (const log of logs)] *)
Definition readTreasuryInfo (logs : list JSString) : PartialTreasuryInfo :=
  fold_left treasury_line logs no_info.

Definition parseTreasuryInfoFromLogs (logs : list JSString) : TreasuryInfo :=
  let info := readTreasuryInfo logs in
  {| totalBalance := or_BN0 (p_totalBalance info);
     totalFeesCollected := or_BN0 (p_totalFeesCollected info);
     lastWithdrawalTime := or_BN0 (p_lastWithdrawalTime info);
     withdrawalCount := or_0 (p_withdrawalCount info);
     donationCount := or_0 (p_donationCount info);
     totalDonations := or_BN0 (p_totalDonations info) |}.

(** The object [versionInfo]: a key is absent ([None]) or holds the result of
    [log.split(label)[1]?.trim()], which is a string or [undefined]. *)
Record VersionInfo : Type := {
  v_name : option (option JSString);
  v_version : option (option JSString);
  v_buildDate : option (option JSString);
  v_rustVersion : option (option JSString)
}.

Definition no_version : VersionInfo :=
  {| v_name := None; v_version := None; v_buildDate := None; v_rustVersion := None |}.

(** [if (log.includes(label)) versionInfo.field = log.split(label)[1]?.trim()] *)
Definition pick (label log : JSString) (old : option (option JSString))
    : option (option JSString) :=
  if includes log label then Some (option_map trim (split_1 label log))
  else old.

Definition version_line (versionInfo : VersionInfo) (log : JSString) : VersionInfo :=
  {| v_name := pick (js "Contract Name:") log (v_name versionInfo);
     v_version := pick (js "Contract Version:") log (v_version versionInfo);
     v_buildDate := pick (js "Build Date:") log (v_buildDate versionInfo);
     v_rustVersion := pick (js "Rust Version:") log (v_rustVersion versionInfo) |}.

(** [Object.keys(versionInfo).length === 0] *)
Definition no_keys (versionInfo : VersionInfo) : bool :=
  match v_name versionInfo, v_version versionInfo,
        v_buildDate versionInfo, v_rustVersion versionInfo with
  | None, None, None, None => true
  | _, _, _, _ => false
  end.

(** [if (versionInfo.field) parts.push(`Tag: ${versionInfo.field}`)]: the
    empty string and [undefined] are falsy. *)
Definition push_part (tag : JSString) (field : option (option JSString))
    (parts : list JSString) : list JSString :=
  match field with
  | Some (Some (c :: v)) => parts ++ [tag ++ c :: v]
  | _ => parts
  end.

Definition format_version (versionInfo : VersionInfo) : JSString :=
  if no_keys versionInfo then js "Version information not available in logs"
  else
    let parts := [] in
    let parts := push_part (js "Name: ") (v_name versionInfo) parts in
    let parts := push_part (js "Version: ") (v_version versionInfo) parts in
    let parts := push_part (js "Build: ") (v_buildDate versionInfo) parts in
    let parts := push_part (js "Rust: ") (v_rustVersion versionInfo) parts in
    join (js " | ") parts.

(** The loop [for (const log of logs)] *)
Definition readVersionInfo (logs : list JSString) : VersionInfo :=
  fold_left version_line logs no_version.

Definition extractVersionFromLogs (logs : list JSString) : JSString :=
  format_version (readVersionInfo logs).

(* ===================================================================== *)
(** * More of src/types.ts and src/constants.ts                            *)
(* ===================================================================== *)

Record LiquidityParams : Type := {
  lq_poolStatePDA : PublicKey;
  lq_depositAmount : Z;
  lq_depositTokenMint : PublicKey;
  lq_userAuthority : PublicKey;
  lq_userTokenAccount : PublicKey;
  lq_userLpAccount : PublicKey
}.

Record SwapResult : Type := {
  sr_amountIn : Z;
  sr_amountOut : Z;
  sr_priceImpact : number;
  sr_fees : Z
}.

(** The object [getPoolPDAs] returns. *)
Record PoolPDAs : Type := {
  poolStatePDA : PublicKey;
  poolBump : Z;
  tokenAVault : PublicKey;
  tokenAVaultBump : Z;
  tokenBVault : PublicKey;
  tokenBVaultBump : Z;
  lpTokenAMint : PublicKey;
  lpTokenAMintBump : Z;
  lpTokenBMint : PublicKey;
  lpTokenBMintBump : Z;
  normalizedTokenA : PublicKey;
  normalizedTokenB : PublicKey
}.

Module FEES.
Definition REGISTRATION_FEE : Z := 1150000000.
Definition DEPOSIT_WITHDRAWAL_FEE : Z := 1300000.
Definition SWAP_CONTRACT_FEE : Z := 27150.
Definition MIN_DONATION_AMOUNT : Z := 100000000.
End FEES.

Module COMPUTE_UNITS.
Definition GET_VERSION : Z := 50000.
Definition INITIALIZE_POOL : Z := 500000.
Definition DEPOSIT : Z := 310000.
Definition WITHDRAW : Z := 310000.
Definition SWAP : Z := 250000.
Definition GET_TREASURY_INFO : Z := 50000.
Definition DONATE_SOL : Z := 120000.
Definition CONSOLIDATE_POOL_FEES : Z := 54000.
End COMPUTE_UNITS.

Definition SYSVAR_RENT_PUBKEY : PublicKey :=
  key_literal "SysvarRent111111111111111111111111111111111".

(* ===================================================================== *)
(** * More of src/utils.ts                                                 *)
(* ===================================================================== *)

Definition deriveTokenVaultPDAs (pool : PublicKey)
    : Result ((PublicKey * Z) * (PublicKey * Z)) :=
  a ← findProgramAddressSync [Buffer_from SEEDS.TOKEN_A_VAULT; toBuffer pool] PROGRAM_ID;
  b ← findProgramAddressSync [Buffer_from SEEDS.TOKEN_B_VAULT; toBuffer pool] PROGRAM_ID;
  Ok (a, b).

Definition deriveLPTokenMintPDAs (pool : PublicKey)
    : Result ((PublicKey * Z) * (PublicKey * Z)) :=
  a ← findProgramAddressSync [Buffer_from SEEDS.LP_TOKEN_A_MINT; toBuffer pool] PROGRAM_ID;
  b ← findProgramAddressSync [Buffer_from SEEDS.LP_TOKEN_B_MINT; toBuffer pool] PROGRAM_ID;
  Ok (a, b).

(** The class [[0-9a-fA-F]] *)
Definition is_hex_digit (c : Z) : bool :=
  is_digit c || ((97 <=? c) && (c <=? 102)) || ((65 <=? c) && (c <=? 70)).

Definition hex_digit_value (c : Z) : Z :=
  if is_digit c then c - 48
  else if (97 <=? c) && (c <=? 102) then c - 87
  else c - 55.

Fixpoint take_hex (s : JSString) : JSString :=
  match s with
  | c :: s' => if is_hex_digit c then c :: take_hex s' else []
  | [] => []
  end.

Definition hex_value (ds : JSString) : Z :=
  fold_left (fun acc c => acc * 16 + hex_digit_value c) ds 0.

(** [log.match(/Custom program error: 0x([0-9a-fA-F]+)/)]: the capture group
    of the leftmost match. *)
Definition match_error_here (s : JSString) : option JSString :=
  match drop_prefix (js "Custom program error: 0x") s with
  | Some r =>
      match take_hex r with
      | [] => None
      | ds => Some ds
      end
  | None => None
  end.

Fixpoint match_error (s : JSString) : option JSString :=
  match match_error_here s with
  | Some ds => Some ds
  | None =>
      match s with
      | [] => None
      | _ :: s' => match_error s'
      end
  end.

(** [parseInt(text, 16)] on a capture of hex digits *)
Definition parseInt16 (ds : JSString) : number := Z2number (hex_value ds).

(** [null] is [None]. *)
Fixpoint parseErrorCode (logs : list JSString) : option number :=
  match logs with
  | [] => None
  | log :: rest =>
      match match_error log with
      | Some m1 => Some (parseInt16 m1)
      | None => parseErrorCode rest
      end
  end.

Definition errorMap : list (Z * string) :=
  [(6006, "System is paused"); (6007, "Pool is paused");
   (6008, "Slippage tolerance exceeded"); (6009, "Insufficient balance");
   (6010, "Invalid amount"); (6011, "Invalid ratio");
   (6012, "Pool already exists"); (6013, "Pool not found");
   (6014, "Unauthorized"); (6015, "Invalid token mint");
   (6016, "Invalid account")]%string.

(** [errorMap[errorCode]]: the number is turned into its text and looked up;
    the text of a number is that of the key [k] exactly when the number is
    [k]. *)
Definition errorMap_get (errorCode : number) : option string :=
  match find (fun entry => SFeqb errorCode (Z2number (fst entry))) errorMap with
  | Some entry => Some (snd entry)
  | None => None
  end.

(** [validateTokenAmount], with [tokenInfo.decimals] a count of digits *)
Definition validateTokenAmount (amount : Z) (decimals : nat) : Result bool :=
  if BN.lte amount 0 then Ok false
  else
    e ← BN.ofNumber (SFadd 53 1024 (Z2number (Z.of_nat decimals)) (Z2number 9));
    let maxAmount := BN.pow 10 e in
    Ok (BN.lt amount maxAmount).

(** [a.toBase58() === b.toBase58()] *)
Definition keysEqual (a b : PublicKey) : bool :=
  String.eqb (toBase58 a) (toBase58 b).

(** The text of a number in a template literal is not modelled; the
    functions that print one take the conversion as a parameter. *)
Section NumberText.
Variable Number_toString : number -> string.

Definition formatError (errorCode : number) : string :=
  match errorMap_get errorCode with
  | Some (String c msg) => String c msg
  | _ => ("Unknown error code: " ++ Number_toString errorCode)%string
  end.

(* ------------------------------------------------------------------- *)
(** ** src/instructions/treasury.ts: donations                           *)
(* ------------------------------------------------------------------- *)

(** [FEES.MIN_DONATION_AMOUNT.toNumber()] is [Z2number] of the constant: 27
    bits are within what [toNumber] accepts. *)
Definition validateDonationParams (params : DonationParams) : ValidationResult :=
  let errors := [] in
  let errors :=
    push_if (BN.lt (dn_amount params) FEES.MIN_DONATION_AMOUNT)
            ("Minimum donation is "
             ++ Number_toString (num_div (Z2number FEES.MIN_DONATION_AMOUNT)
                                         (Z2number 1000000000))
             ++ " SOL")%string errors in
  let maxDonation := BN.mul 1000 1000000000 in
  let errors := push_if (BN.gt (dn_amount params) maxDonation)
                        "Donation amount too large (max 1000 SOL)" errors in
  let errors :=
    push_if (match dn_message params with
             | Some (c :: m) => (200 <? length (c :: m))%nat
             | _ => false
             end)
            "Message too long (max 200 characters)" errors in
  finish errors.

End NumberText.

Definition calculateDonationComputeUnits (donationAmount : Z) : Z :=
  let baseUnits := 5000 in
  let oneSOL := 1000000000 in
  if BN.gte donationAmount (BN.mul oneSOL 100) then 120000
  else if BN.gte donationAmount (BN.mul oneSOL 10) then 80000
  else if BN.gte donationAmount oneSOL then 40000
  else baseUnits.

(* ===================================================================== *)
(** * More of src/instructions/pool.ts                                     *)
(* ===================================================================== *)

Definition createInitializePoolInstruction (params : PoolCreationParams)
    : Result TransactionInstruction :=
  let '(mintA, mintB) :=
    normalizeTokenOrder (pc_tokenAMint params) (pc_tokenBMint params) in
  '(systemStatePDA, _) ← deriveSystemStatePDA;
  '(mainTreasuryPDA, _) ← deriveMainTreasuryPDA;
  '(poolStatePDA, _) ← derivePoolStatePDA mintA mintB (pc_ratioA params) (pc_ratioB params);
  '(tokenAVault, tokenBVault) ← deriveTokenVaultPDAs poolStatePDA;
  '(lpTokenAMint, lpTokenBMint) ← deriveLPTokenMintPDAs poolStatePDA;
  ratioABytes ← BN.toArrayLike_le (pc_ratioA params) 8;
  ratioBBytes ← BN.toArrayLike_le (pc_ratioB params) 8;
  let instructionData :=
    [PoolInstruction.InitializePool] ++ ratioABytes ++ ratioBBytes in
  Ok {| keys :=
          [ {| pubkey := pc_userAuthority params; isSigner := true; isWritable := true |};
            {| pubkey := SystemProgram_programId; isSigner := false; isWritable := false |};
            {| pubkey := systemStatePDA; isSigner := false; isWritable := false |};
            {| pubkey := poolStatePDA; isSigner := false; isWritable := true |};
            {| pubkey := TOKEN_PROGRAM_ID; isSigner := false; isWritable := false |};
            {| pubkey := mainTreasuryPDA; isSigner := false; isWritable := true |};
            {| pubkey := SYSVAR_RENT_PUBKEY; isSigner := false; isWritable := false |};
            {| pubkey := mintA; isSigner := false; isWritable := false |};
            {| pubkey := mintB; isSigner := false; isWritable := false |};
            {| pubkey := fst tokenAVault; isSigner := false; isWritable := true |};
            {| pubkey := fst tokenBVault; isSigner := false; isWritable := true |};
            {| pubkey := fst lpTokenAMint; isSigner := false; isWritable := true |};
            {| pubkey := fst lpTokenBMint; isSigner := false; isWritable := true |} ];
        programId := PROGRAM_ID;
        data := instructionData |}.

Definition getPoolPDAs (tokenAMint tokenBMint : PublicKey) (ratioA ratioB : Z)
    : Result PoolPDAs :=
  let '(mintA, mintB) := normalizeTokenOrder tokenAMint tokenBMint in
  '(pool, bump) ← derivePoolStatePDA mintA mintB ratioA ratioB;
  '(vaultA, vaultB) ← deriveTokenVaultPDAs pool;
  '(lpA, lpB) ← deriveLPTokenMintPDAs pool;
  Ok {| poolStatePDA := pool; poolBump := bump;
        tokenAVault := fst vaultA; tokenAVaultBump := snd vaultA;
        tokenBVault := fst vaultB; tokenBVaultBump := snd vaultB;
        lpTokenAMint := fst lpA; lpTokenAMintBump := snd lpA;
        lpTokenBMint := fst lpB; lpTokenBMintBump := snd lpB;
        normalizedTokenA := mintA; normalizedTokenB := mintB |}.

(* ===================================================================== *)
(** * More of src/instructions/liquidity.ts                                *)
(* ===================================================================== *)

Definition createDepositInstruction (params : LiquidityParams)
    : Result TransactionInstruction :=
  '(systemStatePDA, _) ← deriveSystemStatePDA;
  '(mainTreasuryPDA, _) ← deriveMainTreasuryPDA;
  amountBytes ← BN.toArrayLike_le (lq_depositAmount params) 8;
  let instructionData :=
    [PoolInstruction.Deposit] ++ toBuffer (lq_depositTokenMint params) ++ amountBytes in
  Ok {| keys :=
          [ {| pubkey := lq_userAuthority params; isSigner := true; isWritable := true |};
            {| pubkey := systemStatePDA; isSigner := false; isWritable := false |};
            {| pubkey := lq_poolStatePDA params; isSigner := false; isWritable := true |};
            {| pubkey := lq_userTokenAccount params; isSigner := false; isWritable := true |};
            {| pubkey := TOKEN_PROGRAM_ID; isSigner := false; isWritable := false |};
            {| pubkey := SystemProgram_programId; isSigner := false; isWritable := false |};
            {| pubkey := mainTreasuryPDA; isSigner := false; isWritable := true |};
            {| pubkey := lq_depositTokenMint params; isSigner := false; isWritable := false |};
            {| pubkey := lq_userLpAccount params; isSigner := false; isWritable := true |} ];
        programId := PROGRAM_ID;
        data := instructionData |}.

Definition createWithdrawInstruction
    (poolPDA : PublicKey) (withdrawAmount : Z)
    (withdrawTokenMint userAuthority userLpAccount userTokenAccount : PublicKey)
    : Result TransactionInstruction :=
  '(systemStatePDA, _) ← deriveSystemStatePDA;
  '(mainTreasuryPDA, _) ← deriveMainTreasuryPDA;
  amountBytes ← BN.toArrayLike_le withdrawAmount 8;
  let instructionData :=
    [PoolInstruction.Withdraw] ++ toBuffer withdrawTokenMint ++ amountBytes in
  Ok {| keys :=
          [ {| pubkey := userAuthority; isSigner := true; isWritable := true |};
            {| pubkey := systemStatePDA; isSigner := false; isWritable := false |};
            {| pubkey := poolPDA; isSigner := false; isWritable := true |};
            {| pubkey := userLpAccount; isSigner := false; isWritable := true |};
            {| pubkey := userTokenAccount; isSigner := false; isWritable := true |};
            {| pubkey := TOKEN_PROGRAM_ID; isSigner := false; isWritable := false |};
            {| pubkey := SystemProgram_programId; isSigner := false; isWritable := false |};
            {| pubkey := mainTreasuryPDA; isSigner := false; isWritable := true |};
            {| pubkey := withdrawTokenMint; isSigner := false; isWritable := false |} ];
        programId := PROGRAM_ID;
        data := instructionData |}.

(** The object [calculateDepositAmounts] returns:
    (tokenAAmount, tokenBAmount, isDepositingTokenA). *)
Definition calculateDepositAmounts
    (depositAmount : Z) (depositTokenMint : PublicKey)
    (poolRatioA poolRatioB : Z) (tokenAMint : PublicKey)
    : Result (Z * Z * bool) :=
  let isDepositingTokenA := equals depositTokenMint tokenAMint in
  if isDepositingTokenA then
    b ← calculateRequiredLiquidity depositAmount poolRatioA poolRatioB;
    Ok (depositAmount, b, true)
  else
    a ← calculateRequiredLiquidity depositAmount poolRatioB poolRatioA;
    Ok (a, depositAmount, false).

Definition validateDepositParams (params : LiquidityParams) : ValidationResult :=
  let errors := [] in
  let errors := push_if (BN.lte (lq_depositAmount params) 0)
                        "Deposit amount must be positive" errors in
  let maxDeposit := BN.pow 10 15 in
  let errors := push_if (BN.gte (lq_depositAmount params) maxDeposit)
                        "Deposit amount too large" errors in
  finish errors.

Definition validateWithdrawParams (withdrawAmount userLpBalance : Z)
    : ValidationResult :=
  let errors := [] in
  let errors := push_if (BN.lte withdrawAmount 0)
                        "Withdraw amount must be positive" errors in
  let errors := push_if (BN.gt withdrawAmount userLpBalance)
                        "Insufficient LP token balance" errors in
  finish errors.

(* ===================================================================== *)
(** * More of src/instructions/swap.ts                                     *)
(* ===================================================================== *)

Definition calculateExpectedSwapOutput
    (amountIn : Z) (inputTokenMint : PublicKey)
    (poolRatioA poolRatioB : Z) (tokenAMint : PublicKey) : Result Z :=
  let isInputTokenA := equals inputTokenMint tokenAMint in
  if isInputTokenA then calculateSwapOutput amountIn poolRatioA poolRatioB
  else calculateSwapOutput amountIn poolRatioB poolRatioA.

(** [Math.abs((actualPrice - idealPrice) / idealPrice) * 100] *)
Definition price_impact (idealPrice actualPrice : number) : number :=
  num_mul (SFabs (num_div (num_sub actualPrice idealPrice) idealPrice))
          (Z2number 100).

Definition calculateSwapWithPriceImpact
    (amountIn : Z) (inputTokenMint : PublicKey)
    (poolBalanceA poolBalanceB : Z) (tokenAMint : PublicKey) : Result SwapResult :=
  let isInputTokenA := equals inputTokenMint tokenAMint in
  '(amountOut, priceImpact) ←
    (if isInputTokenA then
       amountOut ← BN.div (BN.mul amountIn poolBalanceB) poolBalanceA;
       b ← BN.toNumber poolBalanceB;
       a ← BN.toNumber poolBalanceA;
       let idealPrice := num_div b a in
       o ← BN.toNumber amountOut;
       i ← BN.toNumber amountIn;
       let actualPrice := num_div o i in
       Ok (amountOut, price_impact idealPrice actualPrice)
     else
       amountOut ← BN.div (BN.mul amountIn poolBalanceA) poolBalanceB;
       a ← BN.toNumber poolBalanceA;
       b ← BN.toNumber poolBalanceB;
       let idealPrice := num_div a b in
       o ← BN.toNumber amountOut;
       i ← BN.toNumber amountIn;
       let actualPrice := num_div o i in
       Ok (amountOut, price_impact idealPrice actualPrice));
  let fees := 27150 in
  Ok {| sr_amountIn := amountIn; sr_amountOut := amountOut;
        sr_priceImpact := priceImpact; sr_fees := fees |}.

Definition getMinAmountOut (expectedAmountOut : Z) (slippageTolerance : number)
    : Result Z :=
  applySlippage expectedAmountOut slippageTolerance.

(* ===================================================================== *)
(** * More of src/instructions/public.ts                                   *)
(* ===================================================================== *)

Definition createGetTreasuryInfoInstruction : Result TransactionInstruction :=
  '(systemStatePDA, _) ← deriveSystemStatePDA;
  '(mainTreasuryPDA, _) ← deriveMainTreasuryPDA;
  Ok {| keys :=
          [ {| pubkey := systemStatePDA; isSigner := false; isWritable := false |};
            {| pubkey := mainTreasuryPDA; isSigner := false; isWritable := false |} ];
        programId := PROGRAM_ID;
        data := [PoolInstruction.GetTreasuryInfo] |}.

Definition createGetVersionInstruction : TransactionInstruction :=
  {| keys := []; programId := PROGRAM_ID; data := [PoolInstruction.GetVersion] |}.

(* ===================================================================== *)
(** * Checking a property on a range of integers                           *)
(* ===================================================================== *)

Fixpoint forall_from (lo : Z) (n : nat) (f : Z -> bool) : bool :=
  match n with
  | O => true
  | S n' => f lo && forall_from (lo + 1) n' f
  end.

(** The tolerance [applySlippage] multiplies by, for an integer percentage. *)
Definition tolerance_of (t : Z) : Result Z :=
  BN.ofNumber
    (Math_floor (num_mul (num_sub (Z2number 100) (Z2number t)) (Z2number 100))).

(* ===================================================================== *)
(** * Values used in the statements                                        *)
(* ===================================================================== *)

(** The two fixed derived addresses, by their Base58 text. *)
Definition systemStatePDA : PublicKey :=
  key_literal "7mJQU5YkXBeeYR44TFosU4YhCciRC5ierTN29fa7ia3D".
Definition mainTreasuryPDA : PublicKey :=
  key_literal "HBffTYMVJHgRYNCQ4opHrAVVeT1QPDtJLLDKki7mUp43".

(** Two distinct keys whose bytes decode to the same text: the byte 0x80,
    respectively 0x81, followed by 31 zero bytes. *)
Definition tokenX : PublicKey := mkPublicKey (128 * 2 ^ 248).
Definition tokenY : PublicKey := mkPublicKey (129 * 2 ^ 248).

Definition wf_string (s : JSString) : Prop :=
  Forall (fun c => 0 <= c < 65536) s.

Definition account (k : PublicKey) (signer writable : bool) : AccountMeta :=
  {| pubkey := k; isSigner := signer; isWritable := writable |}.

(** What a field holds after the loop over [logs], when a line either
    yields a new value for it ([u log = Some v]) or leaves it alone. *)
Definition latest {B : Type} (u : JSString -> option B) (logs : list JSString)
    (init : option B) : option B :=
  fold_left (fun acc log => match u log with Some v => Some v | None => acc end)
            logs init.

(** The value a treasury line yields for the field read under [label]. *)
Definition reading {B : Type} (label : JSString) (conv : JSString -> B)
    (log : JSString) : option B :=
  option_map conv (scan label log).

(** The value a version line yields for the field read under [label]. *)
Definition version_reading (label log : JSString) : option (option JSString) :=
  if includes log label then Some (option_map trim (split_1 label log)) else None.

(** Value of a list of base-58 digits, most significant first. *)
Definition dvalue (ds : list Z) (acc : Z) : Z :=
  fold_left (fun a d => a * 58 + d) ds acc.

(** Keys are compared by the integer they hold. *)
#[global] Instance PublicKey_eq_dec : EqDecision PublicKey.
Proof. solve_decision. Defined.

(** The donation payload as the specification describes it: opcode 13, the
    amount, a length [L] of at most 200 and [L] bytes of text. *)
Definition donation_payload_within_200 (params : DonationParams) : Prop :=
  exists (instr : TransactionInstruction) (L : Z) (text : Buffer),
    createDonateSolInstruction params = Ok instr
    /\ data instr
       = [13] ++ BN.le_bytes 8 (dn_amount params) ++ BN.le_bytes 4 L ++ text
    /\ Z.of_nat (length text) = L
    /\ L <= 200.

(** A message of 200 times the letter e with acute accent (U+00E9). *)
Definition accented_message : JSString := repeat 233 200.

(* ===================================================================== *)
(** * Properties                                                           *)
(* ===================================================================== *)

(** ** Sequencing and ranges *)

Lemma bind_Ok {A B : Type} (a : A) (k : A -> Result B) : (Ok a ≫= k) = k a.
Proof. reflexivity. Qed.

Lemma bind_Throw {A B : Type} (e : Exn) (k : A -> Result B) :
  (Throw e ≫= k) = Throw e.
Proof. reflexivity. Qed.

Lemma forall_from_spec (f : Z -> bool) (n : nat) :
  forall lo, forall_from lo n f = true ->
  forall t, lo <= t < lo + Z.of_nat n -> f t = true.
Proof.
  induction n as [|n IH]; intros lo Hall t Ht.
  - simpl in Ht. lia.
  - simpl in Hall. apply andb_prop in Hall as [Hlo Hrest].
    destruct (Z.eq_dec t lo) as [->|Hne]; [exact Hlo|].
    apply (IH (lo + 1) Hrest). lia.
Qed.

(** ** bn.js *)

Lemma div_nonzero (a b : Z) : b <> 0 -> BN.div a b = Ok (Z.quot a b).
Proof.
  intros Hb. unfold BN.div. destruct (Z.eqb_spec b 0); [contradiction|reflexivity].
Qed.

Lemma div_zero (a : Z) : BN.div a 0 = Throw (AssertionFailed "Assertion failed").
Proof. reflexivity. Qed.

Lemma quot_floor (a b : Z) : 0 <= a -> 0 < b -> Z.quot a b = a / b.
Proof. intros Ha Hb. apply Z.quot_div_nonneg; assumption. Qed.

Lemma byteLength_u64 (a : Z) : 0 <= a < 2 ^ 64 -> BN.byteLength a <= 8.
Proof.
  intros [Hlo Hhi]. unfold BN.byteLength, BN.bitLength.
  destruct (Z.eqb_spec a 0) as [->|Hne]; [vm_compute; discriminate|].
  rewrite Z.abs_eq by assumption.
  assert (Z.log2 a < 64) by (apply Z.log2_lt_pow2; lia).
  assert ((Z.log2 a + 1 + 7) / 8 < 9) by (apply Z.div_lt_upper_bound; lia).
  lia.
Qed.

Lemma toArrayLike_u64 (a : Z) :
  0 <= a < 2 ^ 64 -> BN.toArrayLike_le a 8 = Ok (BN.le_bytes 8 a).
Proof.
  intros Ha. unfold BN.toArrayLike_le.
  pose proof (byteLength_u64 a Ha) as Hb.
  destruct (Z.leb_spec (BN.byteLength a) (Z.of_nat 8)) as [_|Hgt]; [|simpl in Hgt; lia].
  rewrite Z.abs_eq by lia. reflexivity.
Qed.

(** ** Validators: pushing and finishing *)

Lemma push_if_keeps (c : bool) (msg x : string) (errs : list string) :
  In x errs -> In x (push_if c msg errs).
Proof.
  intros Hin. unfold push_if. destruct c; [|exact Hin].
  apply in_or_app. now left.
Qed.

Lemma push_if_true (msg : string) (errs : list string) :
  In msg (push_if true msg errs).
Proof. unfold push_if. apply in_or_app. right. now left. Qed.

Lemma finish_invalid (r : ValidationResult) (x : string) :
  In x (errors r) -> isValid r = (length (errors r) =? 0)%nat -> isValid r = false.
Proof.
  intros Hin ->. destruct (errors r); [contradiction|reflexivity].
Qed.

(** ** Slippage *)

(** On the integers from -100 to 200 the tolerance computed in floating
    point is exactly [(100 - t) * 100]. *)
Lemma tolerance_exact (t : Z) :
  -100 <= t <= 200 -> tolerance_of t = Ok (10000 - t * 100).
Proof.
  intros Ht.
  assert (Hall : forall_from (-100) 301
            (fun t => match tolerance_of t with
                      | Ok v => v =? 10000 - t * 100
                      | Throw _ => false
                      end) = true) by (vm_compute; reflexivity).
  pose proof (forall_from_spec _ _ _ Hall t ltac:(lia)) as H.
  simpl in H. destruct (tolerance_of t) as [v|e]; [|discriminate].
  apply Z.eqb_eq in H. now subst.
Qed.

Lemma applySlippage_integer (expected t : Z) :
  -100 <= t <= 200 ->
  applySlippage expected (Z2number t)
  = Ok (Z.quot (expected * (10000 - t * 100)) 10000).
Proof.
  intros Ht. unfold applySlippage. fold (tolerance_of t).
  rewrite (tolerance_exact t Ht), bind_Ok.
  unfold BN.mul. apply div_nonzero. discriminate.
Qed.

Lemma validateSwapParams_slippage (params : SwapParams) (s : number) :
  sw_slippageTolerance params = Some s ->
  num_lt s (Z2number 0) = true \/ num_lt (Z2number 50) s = true ->
  isValid (validateSwapParams params) = false
  /\ In "Slippage tolerance must be between 0 and 50 percent"%string
        (errors (validateSwapParams params)).
Proof.
  intros Hs Hout.
  assert (Hc : num_lt s (Z2number 0) || num_lt (Z2number 50) s = true)
    by (apply orb_true_iff; exact Hout).
  assert (Hin : In "Slippage tolerance must be between 0 and 50 percent"%string
                   (errors (validateSwapParams params))).
  { unfold validateSwapParams. rewrite Hs, Hc. cbv zeta.
    unfold finish, errors. apply push_if_keeps, push_if_true. }
  split; [|exact Hin].
  apply (finish_invalid _ _ Hin). reflexivity.
Qed.

(** C5. For every non-negative expected amount and integer tolerance [t] in
    [0,50], [applySlippage(expected, t)] is
    [floor(expected * (10000 - t*100) / 10000)]; 1000 at 1 gives 990 and at 0
    gives 1000. The tolerance is never clamped: on every integer from -100 to
    200 the same formula is applied (60 gives 400 of 1000, not the 500 of a
    clamp at 50). [validateSwapParams] is invalid for every defined tolerance
    below 0 or above 50, such as 51. *)
Theorem applySlippage_formula :
  (forall expected t, 0 <= expected -> 0 <= t <= 50 ->
     applySlippage expected (Z2number t)
     = Ok (expected * (10000 - t * 100) / 10000))
  /\ applySlippage 1000 (Z2number 1) = Ok 990
  /\ applySlippage 1000 (Z2number 0) = Ok 1000
  /\ (forall expected t, -100 <= t <= 200 ->
        applySlippage expected (Z2number t)
        = Ok (Z.quot (expected * (10000 - t * 100)) 10000))
  /\ applySlippage 1000 (Z2number 60) = Ok 400
  /\ (forall params s,
        sw_slippageTolerance params = Some s ->
        num_lt s (Z2number 0) = true \/ num_lt (Z2number 50) s = true ->
        isValid (validateSwapParams params) = false)
  /\ (forall params,
        sw_slippageTolerance params = Some (Z2number 51) ->
        isValid (validateSwapParams params) = false).
Proof.
  split; [|split; [|split; [|split; [|split; [|split]]]]].
  - intros expected t He Ht.
    rewrite applySlippage_integer by lia.
    f_equal. apply quot_floor; [apply Z.mul_nonneg_nonneg|]; lia.
  - vm_compute; reflexivity.
  - vm_compute; reflexivity.
  - intros; now apply applySlippage_integer.
  - vm_compute; reflexivity.
  - intros params s Hs Hout. now apply (validateSwapParams_slippage params s).
  - intros params Hs. apply (validateSwapParams_slippage params _ Hs).
    right. vm_compute; reflexivity.
Qed.

Lemma applySlippage_formula_witness :
  applySlippage 12345 (Z2number 7) = Ok (12345 * (10000 - 7 * 100) / 10000).
Proof.
  apply (proj1 applySlippage_formula 12345 7); lia.
Defined.

(** ** Pool creation *)

(** C6. With [ratioA <= 0], the same mint on both sides and
    [0 < ratioB < 10^18], [validatePoolCreationParams] reports exactly the two
    violations, the ratio first and the tokens second, and is not valid. *)
Theorem validatePoolCreationParams_accumulates (params : PoolCreationParams) :
  pc_ratioA params <= 0 ->
  pc_tokenAMint params = pc_tokenBMint params ->
  0 < pc_ratioB params < 10 ^ 18 ->
  validatePoolCreationParams params
  = {| isValid := false;
       errors := ["Ratio A must be positive";
                  "Token A and Token B must be different"]%string |}
  /\ "Ratio A must be positive"%string
     <> "Token A and Token B must be different"%string.
Proof.
  intros HA Heq HB. split; [|discriminate].
  unfold validatePoolCreationParams, equals, BN.lte, BN.gte, BN.eq, BN.pow.
  rewrite Heq, Z.eqb_refl.
  replace (pc_ratioA params <=? 0) with true by (symmetry; apply Z.leb_le; lia).
  replace (pc_ratioB params <=? 0) with false by (symmetry; apply Z.leb_gt; lia).
  replace (10 ^ 18 <=? pc_ratioA params) with false
    by (symmetry; apply Z.leb_gt; lia).
  replace (10 ^ 18 <=? pc_ratioB params) with false
    by (symmetry; apply Z.leb_gt; lia).
  reflexivity.
Qed.

Lemma validatePoolCreationParams_accumulates_witness :
  validatePoolCreationParams
    {| pc_tokenAMint := mkPublicKey 7; pc_tokenBMint := mkPublicKey 7;
       pc_ratioA := 0; pc_ratioB := 160; pc_userAuthority := mkPublicKey 9 |}
  = {| isValid := false;
       errors := ["Ratio A must be positive";
                  "Token A and Token B must be different"]%string |}
  /\ "Ratio A must be positive"%string
     <> "Token A and Token B must be different"%string.
Proof.
  apply validatePoolCreationParams_accumulates; simpl; [lia|reflexivity|lia].
Defined.

(** ** Division by zero and the bootstrap branches *)

(** C7. A zero ratio as divisor makes [calculateSwapOutput] and
    [calculateRequiredLiquidity] raise the bn.js assertion for every amount.
    [estimateLPTokensFromDeposit] returns the deposit when the LP supply or the
    pool balance is zero (500 for (500, 0, 0)) and
    [floor(deposit * lpSupply / poolBalance)] otherwise;
    [estimateTokensFromWithdraw] returns 0 when the LP supply is zero and
    [floor(lpAmount * poolBalance / lpSupply)] otherwise. Amounts are
    unsigned. *)
Theorem zero_divisor_behaviour :
  (forall amountIn ratioOut,
     calculateSwapOutput amountIn 0 ratioOut
     = Throw (AssertionFailed "Assertion failed"))
  /\ (forall amount other,
        calculateRequiredLiquidity amount 0 other
        = Throw (AssertionFailed "Assertion failed"))
  /\ (forall deposit poolBalance lpSupply,
        lpSupply = 0 \/ poolBalance = 0 ->
        estimateLPTokensFromDeposit deposit poolBalance lpSupply = Ok deposit)
  /\ estimateLPTokensFromDeposit 500 0 0 = Ok 500
  /\ (forall deposit poolBalance lpSupply,
        0 <= deposit -> 0 < poolBalance -> 0 < lpSupply ->
        estimateLPTokensFromDeposit deposit poolBalance lpSupply
        = Ok (deposit * lpSupply / poolBalance))
  /\ (forall lpAmount poolBalance,
        estimateTokensFromWithdraw lpAmount poolBalance 0 = Ok 0)
  /\ (forall lpAmount poolBalance lpSupply,
        0 <= lpAmount -> 0 <= poolBalance -> 0 < lpSupply ->
        estimateTokensFromWithdraw lpAmount poolBalance lpSupply
        = Ok (lpAmount * poolBalance / lpSupply)).
Proof.
  split; [|split; [|split; [|split; [|split; [|split]]]]].
  - intros. apply div_zero.
  - intros. apply div_zero.
  - intros deposit poolBalance lpSupply [->| ->]; unfold estimateLPTokensFromDeposit.
    + reflexivity.
    + unfold BN.eq. rewrite Z.eqb_refl, orb_true_r. reflexivity.
  - reflexivity.
  - intros deposit poolBalance lpSupply Hd Hp Hl.
    unfold estimateLPTokensFromDeposit, BN.eq, BN.mul.
    replace (lpSupply =? 0) with false by (symmetry; apply Z.eqb_neq; lia).
    replace (poolBalance =? 0) with false by (symmetry; apply Z.eqb_neq; lia).
    simpl. rewrite div_nonzero by lia. f_equal.
    apply quot_floor; [apply Z.mul_nonneg_nonneg|]; lia.
  - reflexivity.
  - intros lpAmount poolBalance lpSupply Hl Hp Hs.
    unfold estimateTokensFromWithdraw, BN.eq, BN.mul.
    replace (lpSupply =? 0) with false by (symmetry; apply Z.eqb_neq; lia).
    rewrite div_nonzero by lia. f_equal.
    apply quot_floor; [apply Z.mul_nonneg_nonneg|]; lia.
Qed.

Lemma zero_divisor_behaviour_witness :
  estimateLPTokensFromDeposit 500 1000 2000 = Ok (500 * 2000 / 1000)
  /\ estimateTokensFromWithdraw 10 30 4 = Ok (10 * 30 / 4)
  /\ estimateLPTokensFromDeposit 500 0 7 = Ok 500.
Proof.
  destruct zero_divisor_behaviour as (_ & _ & Hboot & _ & Hdep & _ & Hwd).
  split; [apply Hdep; lia|].
  split; [apply Hwd; lia|].
  apply Hboot. right. reflexivity.
Defined.

(** ** Constants of the run time *)

Lemma key_literals_decode :
  PublicKey_ofBase58 "4aeVqtWhrUh6wpX8acNj2hpWXKEQwxjA3PYb2sHhNyCn" = Ok PROGRAM_ID
  /\ PublicKey_ofBase58 "11111111111111111111111111111111"
     = Ok SystemProgram_programId
  /\ PublicKey_ofBase58 "TokenkegQfeZyiNwAJbNbGKPFXCWuBvf9Ss623VQ5DA"
     = Ok TOKEN_PROGRAM_ID
  /\ toBase58 PROGRAM_ID = "4aeVqtWhrUh6wpX8acNj2hpWXKEQwxjA3PYb2sHhNyCn"%string
  /\ _bn SystemProgram_programId = 0.
Proof. repeat (split; [vm_compute; reflexivity|]). reflexivity. Qed.

Lemma field_constants :
  Ed25519.P = 2 ^ 255 - 19
  /\ (Ed25519.pow_2_252_3 3 ^ 8 * 3 ^ 4) mod Ed25519.P = 1
  /\ Ed25519.MASK255 = 2 ^ 255 - 1
  /\ (Ed25519.D * 121666) mod Ed25519.P = (- 121665) mod Ed25519.P
  /\ (Ed25519.SQRT_M1 * Ed25519.SQRT_M1) mod Ed25519.P = (- 1) mod Ed25519.P.
Proof. repeat (split; [vm_compute; reflexivity|]). vm_compute. reflexivity. Qed.

(** The digest of the three bytes of "abc" is the one of FIPS 180-4. *)
Lemma sha256_abc :
  be_value (SHA256.sha256 (utf8_encode (js "abc")))
  = 84342368487090800366523834928142263660104883695016514377462985829716817089965.
Proof. vm_compute. reflexivity. Qed.

(** ** The fixed derived addresses *)

Lemma deriveSystemStatePDA_value : deriveSystemStatePDA = Ok (systemStatePDA, 255).
Proof. vm_compute. reflexivity. Qed.

Lemma deriveMainTreasuryPDA_value : deriveMainTreasuryPDA = Ok (mainTreasuryPDA, 255).
Proof. vm_compute. reflexivity. Qed.

(** ** The swap builder *)

Lemma createSwapInstruction_data (params : SwapParams) (s : number) (minOut : Z) :
  match sw_slippageTolerance params with
  | Some s' => if truthy s' then s' else Z2number 1
  | None => Z2number 1
  end = s ->
  applySlippage (sw_expectedAmountOut params) s = Ok minOut ->
  0 <= sw_amountIn params < 2 ^ 64 ->
  0 <= minOut < 2 ^ 64 ->
  exists instr,
    createSwapInstruction params = Ok instr
    /\ data instr
       = [9] ++ toBuffer (sw_inputTokenMint params)
           ++ BN.le_bytes 8 (sw_amountIn params) ++ BN.le_bytes 8 minOut.
Proof.
  intros Hs Happ Hin Hout. unfold createSwapInstruction.
  rewrite deriveSystemStatePDA_value, bind_Ok.
  rewrite deriveMainTreasuryPDA_value, bind_Ok.
  cbv zeta. rewrite Hs, Happ, bind_Ok.
  rewrite (toArrayLike_u64 _ Hin), bind_Ok.
  rewrite (toArrayLike_u64 _ Hout), bind_Ok.
  eexists. split; reflexivity.
Qed.

(** C9. With [slippageTolerance] equal to 0 (either zero of the number type)
    or left out, the built payload is opcode 9, the input mint, [amountIn]
    and, as [minAmountOut], [applySlippage(expectedAmountOut, 1)]: the 1%
    default, which is below [expectedAmountOut] whenever that is positive. *)
Theorem createSwapInstruction_zero_slippage (params : SwapParams) :
  sw_slippageTolerance params = None
  \/ (exists sign, sw_slippageTolerance params = Some (S754_zero sign)) ->
  0 <= sw_amountIn params < 2 ^ 64 ->
  0 <= sw_expectedAmountOut params < 2 ^ 64 ->
  exists minAmountOut instr,
    applySlippage (sw_expectedAmountOut params) (Z2number 1) = Ok minAmountOut
    /\ createSwapInstruction params = Ok instr
    /\ data instr
       = [9] ++ toBuffer (sw_inputTokenMint params)
           ++ BN.le_bytes 8 (sw_amountIn params) ++ BN.le_bytes 8 minAmountOut
    /\ minAmountOut = sw_expectedAmountOut params * 9900 / 10000
    /\ (0 < sw_expectedAmountOut params ->
        minAmountOut < sw_expectedAmountOut params).
Proof.
  intros Hzero Hin Hexp.
  set (expected := sw_expectedAmountOut params) in *.
  assert (Happ : applySlippage expected (Z2number 1) = Ok (expected * 9900 / 10000)).
  { rewrite (applySlippage_integer expected 1) by lia.
    change (10000 - 1 * 100) with 9900.
    f_equal. apply quot_floor; lia. }
  assert (Hle : expected * 9900 / 10000 <= expected).
  { apply Z.div_le_upper_bound; lia. }
  assert (Hnonneg : 0 <= expected * 9900 / 10000).
  { apply Z.div_pos; lia. }
  assert (Hdefault :
    match sw_slippageTolerance params with
    | Some s' => if truthy s' then s' else Z2number 1
    | None => Z2number 1
    end = Z2number 1).
  { destruct Hzero as [-> | [sign ->]]; reflexivity. }
  destruct (createSwapInstruction_data params _ _ Hdefault Happ Hin)
    as (instr & Hbuilt & Hdata); [lia|].
  exists (expected * 9900 / 10000), instr.
  repeat (split; [assumption || reflexivity|]).
  intros Hpos.
  assert (expected * 9900 / 10000 < expected)
    by (apply Z.div_lt_upper_bound; lia).
  assumption.
Qed.

Lemma createSwapInstruction_zero_slippage_witness :
  exists minAmountOut instr,
    applySlippage 1000 (Z2number 1) = Ok minAmountOut
    /\ createSwapInstruction
         {| sw_poolStatePDA := mkPublicKey 11; sw_amountIn := 250;
            sw_expectedAmountOut := 1000; sw_inputTokenMint := mkPublicKey 12;
            sw_userAuthority := mkPublicKey 13; sw_userInputAccount := mkPublicKey 14;
            sw_userOutputAccount := mkPublicKey 15;
            sw_slippageTolerance := Some (Z2number 0) |} = Ok instr
    /\ data instr
       = [9] ++ toBuffer (mkPublicKey 12)
           ++ BN.le_bytes 8 250 ++ BN.le_bytes 8 minAmountOut
    /\ minAmountOut = 1000 * 9900 / 10000
    /\ (0 < 1000 -> minAmountOut < 1000).
Proof.
  apply (createSwapInstruction_zero_slippage
           {| sw_poolStatePDA := mkPublicKey 11; sw_amountIn := 250;
              sw_expectedAmountOut := 1000; sw_inputTokenMint := mkPublicKey 12;
              sw_userAuthority := mkPublicKey 13; sw_userInputAccount := mkPublicKey 14;
              sw_userOutputAccount := mkPublicKey 15;
              sw_slippageTolerance := Some (Z2number 0) |}).
  - right. exists false. reflexivity.
  - simpl. lia.
  - simpl. lia.
Defined.

(** ** Display conversion *)

(** C3. The round trip through the display conversion loses a unit: 29
    smallest units at 2 decimals become the number nearest to 0.29, and
    [toBasisPoints] of that is 28, because the product [0.29 * 100] is just
    below 29 before [Math.floor]. *)
Theorem basis_points_round_trip_29 :
  exists display,
    fromBasisPoints 29 2 = Ok display
    /\ display = num_div (Z2number 29) (Z2number 100)
    /\ toBasisPoints display 2 = Ok 28.
Proof.
  eexists. split; [reflexivity|]. split; [reflexivity|].
  vm_compute. reflexivity.
Qed.

(** ** Token order and the pool address *)

Lemma str_lt_total (a : JSString) :
  forall b, str_lt a b = false -> str_lt b a = false -> a = b.
Proof.
  induction a as [|x a IH]; intros [|y b] Hab Hba; simpl in *;
    try reflexivity; try discriminate.
  destruct (Z.ltb_spec x y); [discriminate|].
  destruct (Z.ltb_spec y x); [discriminate|].
  assert (x = y) by lia. subst. f_equal. now apply IH.
Qed.

Lemma str_lt_asym (a : JSString) :
  forall b, str_lt a b = true -> str_lt b a = false.
Proof.
  induction a as [|x a IH]; intros [|y b] Hab; simpl in *;
    try reflexivity; try discriminate.
  destruct (Z.ltb_spec x y).
  - destruct (Z.ltb_spec y x); [lia|reflexivity].
  - destruct (Z.ltb_spec y x); [discriminate|]. now apply IH.
Qed.

(** The order is canonical exactly when the two decoded texts differ. *)
Lemma normalizeTokenOrder_comm (a b : PublicKey) :
  Buffer_toString (toBuffer a) <> Buffer_toString (toBuffer b) ->
  normalizeTokenOrder a b = normalizeTokenOrder b a.
Proof.
  intros Hne. unfold normalizeTokenOrder, Buffer_lt.
  destruct (str_lt (Buffer_toString (toBuffer a)) (Buffer_toString (toBuffer b))) eqn:Hab.
  - now rewrite (str_lt_asym _ _ Hab).
  - destruct (str_lt (Buffer_toString (toBuffer b)) (Buffer_toString (toBuffer a))) eqn:Hba;
      [reflexivity|].
    exfalso. apply Hne. now apply str_lt_total.
Qed.

Lemma derivePoolStatePDA_comm (a b : PublicKey) (ratioA ratioB : Z) :
  Buffer_toString (toBuffer a) <> Buffer_toString (toBuffer b) ->
  derivePoolStatePDA a b ratioA ratioB = derivePoolStatePDA b a ratioA ratioB.
Proof.
  intros Hne. unfold derivePoolStatePDA, poolStateSeeds.
  now rewrite (normalizeTokenOrder_comm a b Hne).
Qed.

(** C1. The two token keys 0x80 00..00 and 0x81 00..00 are distinct 32-byte
    addresses, yet their bytes decode to the same text, so the comparison
    with [<] is false both ways: [normalizeTokenOrder] returns its arguments
    swapped in either order, the two calls seed the derivation differently and
    the two pool addresses differ. *)
Theorem derivePoolStatePDA_swapped_differs :
  wf_key tokenX /\ wf_key tokenY /\ tokenX <> tokenY
  /\ Buffer_toString (toBuffer tokenX) = Buffer_toString (toBuffer tokenY)
  /\ normalizeTokenOrder tokenX tokenY = (tokenY, tokenX)
  /\ normalizeTokenOrder tokenY tokenX = (tokenX, tokenY)
  /\ exists poolXY poolYX bumpXY bumpYX,
       derivePoolStatePDA tokenX tokenY 1 1 = Ok (poolXY, bumpXY)
       /\ derivePoolStatePDA tokenY tokenX 1 1 = Ok (poolYX, bumpYX)
       /\ toBase58 poolXY = "AMJ2owVEfkx2Cxoc4zMmYNk887hGED6aLGHYJ9D7Ray8"%string
       /\ toBase58 poolYX = "BUh83qxeH3DtCbKdb8oUes9u2ztpCXthd9Scsec3eYuL"%string
       /\ poolXY <> poolYX.
Proof.
  split; [vm_compute; split; [discriminate|reflexivity]|].
  split; [vm_compute; split; [discriminate|reflexivity]|].
  split; [discriminate|].
  split; [vm_compute; reflexivity|].
  split; [vm_compute; reflexivity|].
  split; [vm_compute; reflexivity|].
  exists (key_literal "AMJ2owVEfkx2Cxoc4zMmYNk887hGED6aLGHYJ9D7Ray8"),
         (key_literal "BUh83qxeH3DtCbKdb8oUes9u2ztpCXthd9Scsec3eYuL"), 255, 255.
  split; [vm_compute; reflexivity|].
  split; [vm_compute; reflexivity|].
  split; [vm_compute; reflexivity|].
  split; [vm_compute; reflexivity|].
  vm_compute. discriminate.
Qed.

(** ** Reading fields back from logs *)

Section Latest.
Context {B : Type} (u : JSString -> option B).

Lemma latest_none (logs : list JSString) :
  (forall log, In log logs -> u log = None) ->
  forall init, latest u logs init = init.
Proof.
  unfold latest. induction logs as [|l logs IH]; intros Hnone init; [reflexivity|].
  simpl. rewrite (Hnone l) by now left.
  apply IH. intros log Hin. apply Hnone. now right.
Qed.

End Latest.

(** Each field of the loop state follows [latest] with its own reading. *)
Lemma fold_field {St B : Type} (line : St -> JSString -> St) (get : St -> option B)
    (u : JSString -> option B) :
  (forall st log, get (line st log)
                  = match u log with Some v => Some v | None => get st end) ->
  forall logs st, get (fold_left line logs st) = latest u logs (get st).
Proof.
  intros Hstep. unfold latest.
  induction logs as [|l logs IH]; intros st; [reflexivity|].
  simpl. rewrite IH, Hstep. reflexivity.
Qed.

Lemma assign_reading {B : Type} (old : option B) (conv : JSString -> B)
    (label log : JSString) :
  assign old conv (scan label log)
  = match reading label conv log with Some v => Some v | None => old end.
Proof. unfold assign, reading. now destruct (scan label log). Qed.

Lemma pick_reading (label log : JSString) (old : option (option JSString)) :
  pick label log old
  = match version_reading label log with Some v => Some v | None => old end.
Proof. unfold pick, version_reading. now destruct (includes log label). Qed.

Lemma scan_absent (label log : JSString) :
  includes log label = false -> scan label log = None.
Proof. intros H. unfold scan. now rewrite H. Qed.

Ltac treasury_field :=
  unfold readTreasuryInfo;
  match goal with
  | |- ?get (fold_left ?line ?logs ?st) = latest ?u ?logs None =>
      exact (fold_field line get u
               (fun st' log => assign_reading (get st') _ _ log) logs st)
  end.

Lemma read_totalBalance (logs : list JSString) :
  p_totalBalance (readTreasuryInfo logs)
  = latest (reading (js "Total Balance:") BN_ofString) logs None.
Proof. treasury_field. Qed.

Lemma read_totalFeesCollected (logs : list JSString) :
  p_totalFeesCollected (readTreasuryInfo logs)
  = latest (reading (js "Total Fees Collected:") BN_ofString) logs None.
Proof. treasury_field. Qed.

Lemma read_lastWithdrawalTime (logs : list JSString) :
  p_lastWithdrawalTime (readTreasuryInfo logs)
  = latest (reading (js "Last Withdrawal:") BN_ofString) logs None.
Proof. treasury_field. Qed.

Lemma read_withdrawalCount (logs : list JSString) :
  p_withdrawalCount (readTreasuryInfo logs)
  = latest (reading (js "Withdrawal Count:") parseInt) logs None.
Proof. treasury_field. Qed.

Lemma read_donationCount (logs : list JSString) :
  p_donationCount (readTreasuryInfo logs)
  = latest (reading (js "Donation Count:") parseInt) logs None.
Proof. treasury_field. Qed.

Lemma read_totalDonations (logs : list JSString) :
  p_totalDonations (readTreasuryInfo logs)
  = latest (reading (js "Total Donations:") BN_ofString) logs None.
Proof. treasury_field. Qed.

Ltac version_field :=
  unfold readVersionInfo;
  match goal with
  | |- ?get (fold_left ?line ?logs ?st) = latest ?u ?logs None =>
      exact (fold_field line get u
               (fun st' log => pick_reading _ log (get st')) logs st)
  end.

Lemma read_name (logs : list JSString) :
  v_name (readVersionInfo logs)
  = latest (version_reading (js "Contract Name:")) logs None.
Proof. version_field. Qed.

Lemma read_version (logs : list JSString) :
  v_version (readVersionInfo logs)
  = latest (version_reading (js "Contract Version:")) logs None.
Proof. version_field. Qed.

Lemma read_buildDate (logs : list JSString) :
  v_buildDate (readVersionInfo logs)
  = latest (version_reading (js "Build Date:")) logs None.
Proof. version_field. Qed.

Lemma read_rustVersion (logs : list JSString) :
  v_rustVersion (readVersionInfo logs)
  = latest (version_reading (js "Rust Version:")) logs None.
Proof. version_field. Qed.

Lemma reading_absent {B : Type} (label : JSString) (conv : JSString -> B)
    (logs : list JSString) :
  (forall log, In log logs -> includes log label = false) ->
  latest (reading label conv) logs None = None.
Proof.
  intros Habsent. apply latest_none.
  intros log Hin. unfold reading. now rewrite (scan_absent _ _ (Habsent log Hin)).
Qed.



(** C8. [parseTreasuryInfoFromLogs] is total. On the empty log list every
    numeric field is zero, and on any log list a field whose label occurs on
    no line is zero. *)
Theorem parseTreasuryInfoFromLogs_defaults :
  parseTreasuryInfoFromLogs []
  = {| totalBalance := 0; totalFeesCollected := 0; lastWithdrawalTime := 0;
       withdrawalCount := Z2number 0; donationCount := Z2number 0;
       totalDonations := 0 |}
  /\ forall logs : list JSString,
       ((forall log, In log logs -> includes log (js "Total Balance:") = false) ->
        totalBalance (parseTreasuryInfoFromLogs logs) = 0)
       /\ ((forall log, In log logs -> includes log (js "Total Fees Collected:") = false) ->
           totalFeesCollected (parseTreasuryInfoFromLogs logs) = 0)
       /\ ((forall log, In log logs -> includes log (js "Last Withdrawal:") = false) ->
           lastWithdrawalTime (parseTreasuryInfoFromLogs logs) = 0)
       /\ ((forall log, In log logs -> includes log (js "Withdrawal Count:") = false) ->
           withdrawalCount (parseTreasuryInfoFromLogs logs) = Z2number 0)
       /\ ((forall log, In log logs -> includes log (js "Donation Count:") = false) ->
           donationCount (parseTreasuryInfoFromLogs logs) = Z2number 0)
       /\ ((forall log, In log logs -> includes log (js "Total Donations:") = false) ->
           totalDonations (parseTreasuryInfoFromLogs logs) = 0).
Proof.
  split; [reflexivity|].
  intros logs. unfold parseTreasuryInfoFromLogs; cbv zeta.
  split; [|split; [|split; [|split; [|split]]]]; intros Habsent;
    cbn [totalBalance totalFeesCollected lastWithdrawalTime withdrawalCount
         donationCount totalDonations].
  - now rewrite read_totalBalance, reading_absent.
  - now rewrite read_totalFeesCollected, reading_absent.
  - now rewrite read_lastWithdrawalTime, reading_absent.
  - now rewrite read_withdrawalCount, reading_absent.
  - now rewrite read_donationCount, reading_absent.
  - now rewrite read_totalDonations, reading_absent.
Qed.

Lemma parseTreasuryInfoFromLogs_defaults_witness :
  totalDonations
    (parseTreasuryInfoFromLogs [js "Program log: Total Balance: 42"]) = 0.
Proof.
  apply (proj2 parseTreasuryInfoFromLogs_defaults
           [js "Program log: Total Balance: 42"]).
  intros log [<-|[]]. vm_compute. reflexivity.
Defined.

(** ** Numbers read from digits *)














(** ** The parts of the version string *)







(** ** Bytes of an integer *)

Lemma length_le_bytes (len : nat) : forall a, length (BN.le_bytes len a) = len.
Proof. induction len as [|len IH]; intros a; simpl; [reflexivity|now rewrite IH]. Qed.

Lemma length_toBuffer (k : PublicKey) : length (toBuffer k) = 32%nat.
Proof. unfold toBuffer, be_bytes. now rewrite length_rev, length_le_bytes. Qed.

Lemma le_bytes_value (len : nat) :
  forall a, foldr (fun b acc => acc * 256 + b) 0 (BN.le_bytes len a)
            = a mod 256 ^ Z.of_nat len.
Proof.
  induction len as [|len IH]; intros a.
  - simpl. now rewrite Z.mod_1_r.
  - cbn [BN.le_bytes foldr]. rewrite IH.
    rewrite Nat2Z.inj_succ, Z.pow_succ_r by lia.
    rewrite (Z.rem_mul_r a 256 (256 ^ Z.of_nat len)) by lia. lia.
Qed.

Lemma be_value_be_bytes (len : nat) (a : Z) :
  be_value (be_bytes len a) = a mod 256 ^ Z.of_nat len.
Proof.
  unfold be_value, be_bytes.
  pose proof (fold_left_rev_right (fun b acc => acc * 256 + b)
                (rev (BN.le_bytes len a)) 0) as H.
  rewrite rev_involutive in H. cbv beta in H. rewrite <- H.
  apply le_bytes_value.
Qed.

Lemma be_value_toBuffer (k : PublicKey) : wf_key k -> be_value (toBuffer k) = _bn k.
Proof.
  intros Hwf. unfold toBuffer. rewrite be_value_be_bytes.
  apply Z.mod_small. exact Hwf.
Qed.

(** ** Base58 text determines the key *)

Lemma dvalue_acc (ds : list Z) :
  forall a, dvalue ds a = a * 58 ^ Z.of_nat (length ds) + dvalue ds 0.
Proof.
  unfold dvalue. induction ds as [|d ds IH]; intros a.
  - simpl. lia.
  - cbn [fold_left length]. rewrite (IH (a * 58 + d)), (IH (0 * 58 + d)).
    rewrite Nat2Z.inj_succ, Z.pow_succ_r by lia. ring.
Qed.

Lemma b58_digits_value (fuel : nat) :
  forall n acc, 0 <= n < 58 ^ Z.of_nat fuel ->
  dvalue (b58_digits fuel n acc) 0 = n * 58 ^ Z.of_nat (length acc) + dvalue acc 0.
Proof.
  induction fuel as [|fuel IH]; intros n acc Hn.
  - simpl in *. assert (n = 0) by lia. subst. lia.
  - cbn [b58_digits]. destruct (Z.leb_spec n 0) as [Hle|Hgt].
    + assert (n = 0) by lia. subst. lia.
    + rewrite Nat2Z.inj_succ, Z.pow_succ_r in Hn by lia.
      rewrite IH by (split; [apply Z.div_pos; lia|apply Z.div_lt_upper_bound; lia]).
      cbn [length]. rewrite Nat2Z.inj_succ, Z.pow_succ_r by lia.
      unfold dvalue at 1. cbn [fold_left]. fold (dvalue acc (0 * 58 + n mod 58)).
      rewrite (dvalue_acc acc (0 * 58 + n mod 58)).
      set (P := 58 ^ Z.of_nat (length acc)).
      assert (Hsplit : n * P = n / 58 * (58 * P) + n mod 58 * P).
      { rewrite (Z.div_mod n 58) at 1 by lia. ring. }
      rewrite Hsplit. ring.
Qed.

Lemma b58_digits_range (fuel : nat) :
  forall n acc, Forall (fun d => 0 <= d < 58) acc ->
  Forall (fun d => 0 <= d < 58) (b58_digits fuel n acc).
Proof.
  induction fuel as [|fuel IH]; intros n acc Hacc; [exact Hacc|].
  cbn [b58_digits]. destruct (n <=? 0); [exact Hacc|].
  apply IH. constructor; [apply Z.mod_pos_bound; lia|exact Hacc].
Qed.

Lemma b58_index_char (d : Z) : 0 <= d < 58 -> b58_index (b58_char d) = Some d.
Proof.
  intros Hd.
  assert (Hall : forall_from 0 58
            (fun d => match b58_index (b58_char d) with
                      | Some d' => d' =? d
                      | None => false
                      end) = true) by (vm_compute; reflexivity).
  pose proof (forall_from_spec _ _ _ Hall d ltac:(lia)) as H.
  cbv beta in H. destruct (b58_index (b58_char d)) as [d'|]; [|discriminate].
  apply Z.eqb_eq in H. now subst.
Qed.

Lemma b58_value_digits (ds : list Z) :
  Forall (fun d => 0 <= d < 58) ds ->
  forall a, b58_value (map b58_char ds) a = Some (dvalue ds a).
Proof.
  induction 1 as [|d ds Hd _ IH]; intros a; [reflexivity|].
  cbn [map b58_value]. rewrite (b58_index_char d Hd). apply IH.
Qed.

Lemma b58_value_ones (z : nat) (cs : list ascii) :
  b58_value (repeat "1"%char z ++ cs) 0 = b58_value cs 0.
Proof.
  induction z as [|z IH]; [reflexivity|].
  cbn [repeat app b58_value].
  change (b58_index "1"%char) with (Some 0). exact IH.
Qed.

Lemma toBase58_value (k : PublicKey) :
  wf_key k -> b58_value (list_ascii_of_string (toBase58 k)) 0 = Some (_bn k).
Proof.
  intros Hwf. unfold toBase58, bs58_encode.
  rewrite list_ascii_of_string_of_list_ascii, b58_value_ones.
  rewrite b58_value_digits by (apply b58_digits_range; constructor).
  rewrite length_toBuffer, (be_value_toBuffer k Hwf).
  assert (Hfuel : 2 ^ 256 < 58 ^ Z.of_nat (2 * 32)) by (vm_compute; reflexivity).
  rewrite b58_digits_value by (unfold wf_key in Hwf; lia).
  f_equal. simpl. lia.
Qed.

Lemma toBase58_inj (a b : PublicKey) :
  wf_key a -> wf_key b -> toBase58 a = toBase58 b -> a = b.
Proof.
  intros Ha Hb Heq.
  pose proof (toBase58_value a Ha) as Hva.
  rewrite Heq, (toBase58_value b Hb) in Hva.
  destruct a as [x], b as [y]. simpl in Hva. congruence.
Qed.

(** ** Fee consolidation *)

Lemma createConsolidatePoolFeesInstruction_built (pools : list PublicKey) :
  createConsolidatePoolFeesInstruction pools
  = Ok {| keys := [account systemStatePDA false false;
                   account mainTreasuryPDA false true;
                   account SystemProgram_programId false false]
                  ++ map (fun p => account p false true) (firstn 20 pools);
          programId := PROGRAM_ID;
          data := [15] ++ BN.le_bytes 4 (Z.of_nat (length (firstn 20 pools))) |}.
Proof.
  unfold createConsolidatePoolFeesInstruction.
  rewrite deriveSystemStatePDA_value, bind_Ok.
  rewrite deriveMainTreasuryPDA_value, bind_Ok.
  cbv zeta.
  assert (Hlen : (length (firstn 20 pools) <= 20)%nat) by apply firstn_le_length.
  unfold writeUInt32LE.
  destruct (Z.leb_spec 0 (Z.of_nat (length (firstn 20 pools)))); [|lia].
  destruct (Z.ltb_spec (Z.of_nat (length (firstn 20 pools))) (2 ^ 32)); [|lia].
  reflexivity.
Qed.

Lemma validateConsolidationParams_distinct (pools : list PublicKey) :
  Forall wf_key pools -> NoDup pools ->
  size (list_to_set (map toBase58 pools) : gset string) = length pools.
Proof.
  intros Hwf Hnd.
  rewrite size_list_to_set; [apply length_map|].
  apply (NoDup_fmap_2_strong toBase58 pools); [|exact Hnd].
  intros x y Hx Hy. rewrite Forall_forall in Hwf.
  apply toBase58_inj; apply Hwf; assumption.
Qed.

(** C4. A list of more than 20 pool addresses (25, say) is encoded as opcode
    15, the count 20 in four little-endian bytes, and the three fixed
    accounts followed by the first 20 addresses only;
    [validateConsolidationParams] rejects the same list with the message
    about the maximum of 20. Between 1 and 20 distinct addresses are valid. *)
Theorem consolidation_limit :
  (forall pools : list PublicKey,
     (20 < length pools)%nat ->
     (exists instr,
        createConsolidatePoolFeesInstruction pools = Ok instr
        /\ data instr = [15; 20; 0; 0; 0]
        /\ keys instr
           = [account systemStatePDA false false;
              account mainTreasuryPDA false true;
              account SystemProgram_programId false false]
             ++ map (fun p => account p false true) (firstn 20 pools)
        /\ length (keys instr) = 23%nat)
     /\ isValid (validateConsolidationParams pools) = false
     /\ In "Maximum 20 pools per consolidation transaction"%string
           (errors (validateConsolidationParams pools)))
  /\ (forall pools : list PublicKey,
        (1 <= length pools <= 20)%nat ->
        Forall wf_key pools -> NoDup pools ->
        validateConsolidationParams pools = {| isValid := true; errors := [] |}).
Proof.
  split.
  - intros pools Hlen.
    assert (H20 : length (firstn 20 pools) = 20%nat)
      by (apply firstn_length_le; lia).
    split.
    + eexists. split; [apply createConsolidatePoolFeesInstruction_built|].
      cbn [data keys]. rewrite H20.
      split; [reflexivity|]. split; [reflexivity|].
      rewrite length_app, length_map, H20. reflexivity.
    + assert (Hin : In "Maximum 20 pools per consolidation transaction"%string
                       (errors (validateConsolidationParams pools))).
      { unfold validateConsolidationParams. cbv zeta.
        replace (20 <? length pools)%nat with true
          by (symmetry; apply Nat.ltb_lt; lia).
        unfold finish, errors. apply push_if_keeps, push_if_true. }
      split; [|exact Hin].
      apply (finish_invalid _ _ Hin). reflexivity.
  - intros pools Hlen Hwf Hnd.
    unfold validateConsolidationParams. cbv zeta.
    rewrite (validateConsolidationParams_distinct pools Hwf Hnd).
    rewrite Nat.eqb_refl.
    replace (length pools =? 0)%nat with false
      by (symmetry; apply Nat.eqb_neq; lia).
    replace (20 <? length pools)%nat with false
      by (symmetry; apply Nat.ltb_ge; lia).
    reflexivity.
Qed.

Lemma consolidation_limit_witness :
  (exists instr,
     createConsolidatePoolFeesInstruction
       (map (fun i => mkPublicKey (Z.of_nat i)) (seq 1 25)) = Ok instr
     /\ data instr = [15; 20; 0; 0; 0]
     /\ keys instr
        = [account systemStatePDA false false;
           account mainTreasuryPDA false true;
           account SystemProgram_programId false false]
          ++ map (fun p => account p false true)
                 (firstn 20 (map (fun i => mkPublicKey (Z.of_nat i)) (seq 1 25)))
     /\ length (keys instr) = 23%nat)
  /\ validateConsolidationParams [mkPublicKey 1; mkPublicKey 2; mkPublicKey 3]
     = {| isValid := true; errors := [] |}.
Proof.
  split.
  - refine (proj1 (proj1 consolidation_limit
                      (map (fun i => mkPublicKey (Z.of_nat i)) (seq 1 25)) _)).
    simpl. lia.
  - apply (proj2 consolidation_limit [mkPublicKey 1; mkPublicKey 2; mkPublicKey 3]).
    + simpl. lia.
    + repeat constructor; vm_compute; congruence.
    + compute_done.
Defined.


(** ** The donation message *)

Lemma utf8_of_code_point_length (cp : Z) :
  (length (utf8_of_code_point cp) <= 4)%nat
  /\ (cp < 65536 -> (length (utf8_of_code_point cp) <= 3)%nat).
Proof.
  unfold utf8_of_code_point.
  destruct (Z.ltb_spec cp 128); [simpl; lia|].
  destruct (Z.ltb_spec cp 2048); [simpl; lia|].
  destruct (Z.ltb_spec cp 65536); simpl; lia.
Qed.

(** A code unit takes at most three bytes, a surrogate pair four. *)
Lemma utf8_encode_length (n : nat) :
  forall s, (length s <= n)%nat -> wf_string s ->
  (length (utf8_encode s) <= 3 * length s)%nat.
Proof.
  induction n as [|n IH]; intros s Hlen Hwf.
  - destruct s; simpl in *; lia.
  - destruct s as [|c rest]; [simpl; lia|].
    apply Forall_cons in Hwf as [Hc Hrest]. cbn [length] in Hlen.
    pose proof (utf8_of_code_point_length c) as [_ Hc3].
    cbn [utf8_encode]. unfold replacement_bytes. destruct (is_high_surrogate c).
    + destruct rest as [|d rest']; [simpl; lia|].
      apply Forall_cons in Hrest as [Hd Hrest']. cbn [length] in Hlen.
      destruct (is_low_surrogate d).
      * rewrite length_app.
        pose proof (utf8_of_code_point_length
                      (65536 + (c - 55296) * 1024 + (d - 56320))) as [H4 _].
        pose proof (IH rest' ltac:(lia) Hrest'). cbn [length]. lia.
      * rewrite length_app.
        pose proof (IH (d :: rest') ltac:(simpl; lia)
                       ltac:(apply Forall_cons; split; assumption)).
        cbn [length] in *. lia.
    + pose proof (IH rest ltac:(lia) Hrest).
      destruct (is_low_surrogate c); rewrite length_app; cbn [length]; lia.
Qed.

Lemma utf8_encode_ascii (s : JSString) :
  Forall (fun c => 0 <= c < 128) s -> utf8_encode s = s.
Proof.
  induction 1 as [|c s Hc _ IH]; [reflexivity|].
  cbn [utf8_encode]. unfold is_high_surrogate, is_low_surrogate, utf8_of_code_point.
  destruct (Z.leb_spec 55296 c); [lia|].
  destruct (Z.leb_spec 56320 c); [lia|].
  destruct (Z.ltb_spec c 128); [|lia].
  simpl. now rewrite IH.
Qed.

Lemma createDonateSolInstruction_built (params : DonationParams) :
  0 <= dn_amount params < 2 ^ 64 ->
  wf_string (match dn_message params with Some m => m | None => [] end) ->
  let text :=
    utf8_encode (slice0 (match dn_message params with Some m => m | None => [] end) 200) in
  (length text <= 600)%nat
  /\ createDonateSolInstruction params
     = Ok {| keys := [account (dn_donor params) true true;
                      account mainTreasuryPDA false true;
                      account systemStatePDA false false;
                      account SystemProgram_programId false false];
             programId := PROGRAM_ID;
             data := [13] ++ BN.le_bytes 8 (dn_amount params)
                       ++ BN.le_bytes 4 (Z.of_nat (length text)) ++ text |}.
Proof.
  intros Hamount Hwf text.
  set (message := match dn_message params with Some m => m | None => [] end) in *.
  assert (Hslice : (length (slice0 message 200) <= 200)%nat)
    by apply firstn_le_length.
  assert (Hlen : (length text <= 600)%nat).
  { assert (Hwf' : wf_string (slice0 message 200))
      by (apply Forall_take; exact Hwf).
    pose proof (utf8_encode_length _ (slice0 message 200) (le_n _) Hwf').
    subst text. lia. }
  split; [exact Hlen|].
  unfold createDonateSolInstruction. cbv zeta. fold message.
  rewrite deriveSystemStatePDA_value, bind_Ok.
  rewrite deriveMainTreasuryPDA_value, bind_Ok.
  unfold encodeMessage. cbv zeta. unfold Buffer_from. fold text.
  unfold writeUInt32LE.
  destruct (Z.leb_spec 0 (Z.of_nat (length text))); [|lia].
  destruct (Z.ltb_spec (Z.of_nat (length text)) (2 ^ 32)); [|lia].
  cbn [andb]. rewrite !bind_Ok.
  rewrite (toArrayLike_u64 _ Hamount), bind_Ok.
  reflexivity.
Qed.

(** C2, as stated, fails: 200 accented letters are 200 code units, which
    [slice(0, 200)] keeps whole, and 400 bytes of UTF-8; the length field
    holds 400. *)
Lemma donation_message_over_200_bytes :
  ~ donation_payload_within_200
      {| dn_donor := mkPublicKey 5; dn_amount := 100000000;
         dn_message := Some accented_message |}.
Proof.
  intros (instr & L & text & Hcreate & Hdata & Htext & HL).
  destruct (createDonateSolInstruction_built
              {| dn_donor := mkPublicKey 5; dn_amount := 100000000;
                 dn_message := Some accented_message |})
    as [_ Hbuilt].
  - simpl. lia.
  - simpl. unfold wf_string, accented_message.
    apply List.Forall_forall. intros c Hc. apply repeat_spec in Hc. lia.
  - cbv zeta in Hbuilt. cbn [dn_message dn_amount dn_donor] in Hbuilt, Hdata.
    assert (Hbytes : length (utf8_encode (slice0 accented_message 200)) = 400%nat)
      by (vm_compute; reflexivity).
    rewrite Hbuilt in Hcreate.
    apply (f_equal (fun r => match r with
                             | Ok i => length (data i)
                             | Throw _ => 0%nat
                             end)) in Hcreate.
    cbv beta iota in Hcreate. cbn [data] in Hcreate.
    rewrite Hdata in Hcreate.
    rewrite !length_app, !length_le_bytes, Hbytes in Hcreate.
    cbn [length] in Hcreate. lia.
Qed.

(** C2, amended. For every donor, every amount below 2^64 and every message,
    the payload is opcode 13, the amount in 8 little-endian bytes, a 4-byte
    little-endian length L and exactly L bytes: the UTF-8 encoding of the
    first 200 UTF-16 code units of the message. L is at most 600, and at most
    200 when the message is ASCII. *)
Theorem createDonateSolInstruction_payload (params : DonationParams) :
  0 <= dn_amount params < 2 ^ 64 ->
  wf_string (match dn_message params with Some m => m | None => [] end) ->
  exists (instr : TransactionInstruction) (text : Buffer),
    createDonateSolInstruction params = Ok instr
    /\ text = utf8_encode
                (slice0 (match dn_message params with Some m => m | None => [] end) 200)
    /\ data instr
       = [13] ++ BN.le_bytes 8 (dn_amount params)
           ++ BN.le_bytes 4 (Z.of_nat (length text)) ++ text
    /\ (length text <= 600)%nat
    /\ (Forall (fun c => 0 <= c < 128)
               (match dn_message params with Some m => m | None => [] end) ->
        (length text <= 200)%nat).
Proof.
  intros Hamount Hwf.
  destruct (createDonateSolInstruction_built params Hamount Hwf) as [Hlen Hbuilt].
  eexists. eexists.
  split; [exact Hbuilt|]. split; [reflexivity|]. split; [reflexivity|].
  split; [exact Hlen|].
  intros Hascii.
  rewrite utf8_encode_ascii by (apply Forall_take; exact Hascii).
  apply firstn_le_length.
Qed.

Lemma createDonateSolInstruction_payload_witness :
  exists (instr : TransactionInstruction) (text : Buffer),
    createDonateSolInstruction
      {| dn_donor := mkPublicKey 5; dn_amount := 100000000;
         dn_message := Some (js "thanks") |} = Ok instr
    /\ text = utf8_encode (slice0 (js "thanks") 200)
    /\ data instr
       = [13] ++ BN.le_bytes 8 100000000
           ++ BN.le_bytes 4 (Z.of_nat (length text)) ++ text
    /\ (length text <= 600)%nat
    /\ (Forall (fun c => 0 <= c < 128) (js "thanks") -> (length text <= 200)%nat).
Proof.
  apply (createDonateSolInstruction_payload
           {| dn_donor := mkPublicKey 5; dn_amount := 100000000;
              dn_message := Some (js "thanks") |}).
  - simpl. lia.
  - simpl. unfold wf_string. repeat constructor; vm_compute; congruence.
Defined.


(* ===================================================================== *)
(** * Further properties of the library                                    *)
(* ===================================================================== *)

(** ** Validators in general *)

Lemma push_if_nil (c : bool) (msg : string) (errs : list string) :
  push_if c msg errs = [] <-> c = false /\ errs = [].
Proof.
  unfold push_if. destruct c.
  - split; [|intros [H _]; discriminate].
    intros H. destruct errs; discriminate.
  - tauto.
Qed.

Lemma isValid_finish (errs : list string) :
  isValid (finish errs) = true <-> errs = [].
Proof.
  unfold finish. cbn [isValid]. destruct errs; split; intros H;
    try reflexivity; discriminate.
Qed.

Lemma length_push_if (c : bool) (msg : string) (errs : list string) :
  length (push_if c msg errs) = (length errs + (if c then 1 else 0))%nat.
Proof. unfold push_if. destruct c; [rewrite length_app; reflexivity|lia]. Qed.

(** ** Ratio arithmetic *)

Lemma calculateSwapOutput_floor (x rIn rOut : Z) :
  0 <= x -> 0 < rIn -> 0 <= rOut ->
  calculateSwapOutput x rIn rOut = Ok (x * rOut / rIn).
Proof.
  intros Hx Hin Hout. unfold calculateSwapOutput, BN.mul.
  rewrite div_nonzero by lia. f_equal.
  apply quot_floor; [apply Z.mul_nonneg_nonneg|]; lia.
Qed.

Lemma floor_bounds (n d : Z) : 0 < d -> n / d * d <= n < (n / d + 1) * d.
Proof.
  intros Hd. pose proof (Z.div_mod n d ltac:(lia)).
  pose proof (Z.mod_pos_bound n d Hd). lia.
Qed.

Lemma floor_back (y a b x : Z) : 0 < b -> y * a <= x * b -> y * a / b <= x.
Proof.
  intros Hb Hle.
  apply Z.div_le_upper_bound; lia.
Qed.

(** X1. Swapping an amount of token A into B and the result back into A, at
    the pool's ratios, never returns more than the amount: both conversions
    round down. The first output [y] is the floor of the exact share. *)
Theorem swap_there_and_back
    (x ratioA ratioB : Z) (tokenA tokenB : PublicKey) :
  0 <= x -> 0 < ratioA -> 0 < ratioB -> _bn tokenB <> _bn tokenA ->
  exists y z,
    calculateExpectedSwapOutput x tokenA ratioA ratioB tokenA = Ok y
    /\ calculateExpectedSwapOutput y tokenB ratioA ratioB tokenA = Ok z
    /\ y * ratioA <= x * ratioB < (y + 1) * ratioA
    /\ 0 <= z <= x.
Proof.
  intros Hx HA HB Hne.
  pose proof (floor_bounds (x * ratioB) ratioA HA) as Hy.
  assert (Hy0 : 0 <= x * ratioB / ratioA) by (apply Z.div_pos; nia).
  exists (x * ratioB / ratioA), (x * ratioB / ratioA * ratioA / ratioB).
  unfold calculateExpectedSwapOutput, equals, BN.eq.
  rewrite Z.eqb_refl.
  replace (_bn tokenB =? _bn tokenA) with false by (symmetry; apply Z.eqb_neq; exact Hne).
  rewrite !calculateSwapOutput_floor by lia.
  repeat (split; [reflexivity || lia|]).
  split; [apply Z.div_pos; nia|].
  apply floor_back; lia.
Qed.

Lemma swap_there_and_back_witness :
  exists y z,
    calculateExpectedSwapOutput 100 (mkPublicKey 1) 3 7 (mkPublicKey 1) = Ok y
    /\ calculateExpectedSwapOutput y (mkPublicKey 2) 3 7 (mkPublicKey 1) = Ok z
    /\ y * 3 <= 100 * 7 < (y + 1) * 3
    /\ 0 <= z <= 100.
Proof.
  apply (swap_there_and_back 100 3 7 (mkPublicKey 1) (mkPublicKey 2)); simpl; lia.
Defined.

(** X2. [calculateDepositAmounts] keeps the deposit on its own side and puts
    on the other side the floor of the exact counterpart: the pair it returns
    never asks for more of the other token than the pool ratio gives. *)
Theorem calculateDepositAmounts_floor
    (deposit ratioA ratioB : Z) (mint tokenA : PublicKey) :
  0 <= deposit -> 0 < ratioA -> 0 < ratioB ->
  exists a b,
    calculateDepositAmounts deposit mint ratioA ratioB tokenA
    = Ok (a, b, equals mint tokenA)
    /\ (equals mint tokenA = true ->
        a = deposit /\ b * ratioA <= deposit * ratioB < (b + 1) * ratioA)
    /\ (equals mint tokenA = false ->
        b = deposit /\ a * ratioB <= deposit * ratioA < (a + 1) * ratioB).
Proof.
  intros Hd HA HB. unfold calculateDepositAmounts, calculateRequiredLiquidity, BN.mul.
  destruct (equals mint tokenA).
  - exists deposit, (deposit * ratioB / ratioA).
    rewrite div_nonzero, quot_floor, bind_Ok by nia.
    split; [reflexivity|]. split; [|discriminate].
    intros _. split; [reflexivity|apply floor_bounds; lia].
  - exists (deposit * ratioA / ratioB), deposit.
    rewrite div_nonzero, quot_floor, bind_Ok by nia.
    split; [reflexivity|]. split; [discriminate|].
    intros _. split; [reflexivity|apply floor_bounds; lia].
Qed.

Lemma calculateDepositAmounts_floor_witness :
  exists a b,
    calculateDepositAmounts 1000 (mkPublicKey 2) 3 7 (mkPublicKey 1)
    = Ok (a, b, equals (mkPublicKey 2) (mkPublicKey 1))
    /\ (equals (mkPublicKey 2) (mkPublicKey 1) = true ->
        a = 1000 /\ b * 3 <= 1000 * 7 < (b + 1) * 3)
    /\ (equals (mkPublicKey 2) (mkPublicKey 1) = false ->
        b = 1000 /\ a * 7 <= 1000 * 3 < (a + 1) * 7).
Proof.
  apply (calculateDepositAmounts_floor 1000 3 7 (mkPublicKey 2) (mkPublicKey 1)); lia.
Defined.

(** X3. Liquidity shares, for non-negative amounts: neither estimate raises.
    The LP tokens estimated for a deposit, burned right after it (balance
    grown by the deposit, supply by the LP tokens), are estimated to return
    at most the deposit when the pool has an LP supply or has no balance;
    the first deposit into an empty pool is returned exactly. A pool that
    holds a balance but has no LP supply is the exception: the deposit takes
    the bootstrap branch, and the withdrawal is then estimated at the whole
    balance plus the deposit. *)
Theorem deposit_then_withdraw (deposit poolBalance lpSupply : Z) :
  0 <= deposit -> 0 <= poolBalance -> 0 <= lpSupply ->
  exists lp out,
    estimateLPTokensFromDeposit deposit poolBalance lpSupply = Ok lp
    /\ estimateTokensFromWithdraw lp (poolBalance + deposit) (lpSupply + lp) = Ok out
    /\ 0 <= lp
    /\ 0 <= out
    /\ (0 < lpSupply \/ poolBalance = 0 -> out <= deposit)
    /\ (poolBalance = 0 -> lpSupply = 0 -> out = deposit)
    /\ (0 < poolBalance -> lpSupply = 0 -> 0 < deposit ->
        lp = deposit /\ out = poolBalance + deposit /\ deposit < out).
Proof.
  intros Hd Hp Hs.
  unfold estimateLPTokensFromDeposit, estimateTokensFromWithdraw, BN.eq, BN.mul.
  destruct (Z.eqb_spec lpSupply 0) as [Hs0|Hs0];
    [|destruct (Z.eqb_spec poolBalance 0) as [Hp0|Hp0]]; cbn [orb].
  - (* no supply: the bootstrap branch *)
    subst lpSupply.
    destruct (Z.eqb_spec deposit 0) as [Hd0|Hd0].
    + exists deposit, 0. subst deposit. cbn [Z.add Z.eqb].
      repeat split; lia.
    + exists deposit, (poolBalance + deposit).
      rewrite Z.add_0_l.
      replace (deposit =? 0) with false by (symmetry; apply Z.eqb_neq; lia).
      rewrite div_nonzero by exact Hd0.
      replace (deposit * (poolBalance + deposit))
        with ((poolBalance + deposit) * deposit) by lia.
      rewrite Z.quot_mul by exact Hd0.
      repeat split; lia.
  - (* a supply but no balance: the bootstrap branch again *)
    subst poolBalance.
    exists deposit, (deposit * deposit / (lpSupply + deposit)).
    rewrite Z.add_0_l.
    replace (lpSupply + deposit =? 0) with false by (symmetry; apply Z.eqb_neq; lia).
    rewrite div_nonzero, quot_floor by nia.
    assert (Hout : deposit * deposit / (lpSupply + deposit) <= deposit).
    { apply Z.div_le_upper_bound; nia. }
    assert (0 <= deposit * deposit / (lpSupply + deposit)) by (apply Z.div_pos; nia).
    repeat split; lia.
  - (* a balance and a supply: the proportional share, rounded down *)
    set (lp := deposit * lpSupply / poolBalance).
    assert (Hlp0 : 0 <= lp) by (apply Z.div_pos; nia).
    pose proof (floor_bounds (deposit * lpSupply) poolBalance ltac:(lia)) as Hlp.
    fold lp in Hlp.
    exists lp, (lp * (poolBalance + deposit) / (lpSupply + lp)).
    replace (lpSupply + lp =? 0) with false by (symmetry; apply Z.eqb_neq; lia).
    rewrite !div_nonzero, !quot_floor by nia. fold lp.
    assert (Hout : lp * (poolBalance + deposit) / (lpSupply + lp) <= deposit).
    { apply floor_back; nia. }
    assert (0 <= lp * (poolBalance + deposit) / (lpSupply + lp))
      by (apply Z.div_pos; nia).
    repeat split; lia.
Qed.

Lemma deposit_then_withdraw_witness :
  exists lp out,
    estimateLPTokensFromDeposit 10 5 0 = Ok lp
    /\ estimateTokensFromWithdraw lp (5 + 10) (0 + lp) = Ok out
    /\ 0 <= lp
    /\ 0 <= out
    /\ (0 < 0 \/ 5 = 0 -> out <= 10)
    /\ (5 = 0 -> 0 = 0 -> out = 10)
    /\ (0 < 5 -> 0 = 0 -> 0 < 10 -> lp = 10 /\ out = 5 + 10 /\ 10 < out).
Proof.
  apply (deposit_then_withdraw 10 5 0); lia.
Defined.

(** X4. For an integer tolerance between 0 and 100 per cent and a
    non-negative expected amount, [getMinAmountOut] (that is [applySlippage])
    returns an amount between 0 and the expected one; it grows with the
    expected amount, is 0 at 100 per cent, and for a tolerance of at most 50
    it is at least half of the expected amount, rounded down. *)
Theorem getMinAmountOut_bounds (expected t : Z) :
  0 <= expected -> 0 <= t <= 100 ->
  exists m,
    getMinAmountOut expected (Z2number t) = Ok m
    /\ 0 <= m <= expected
    /\ (t = 100 -> m = 0)
    /\ (t <= 50 -> expected / 2 <= m)
    /\ (forall expected', expected <= expected' ->
        exists m', getMinAmountOut expected' (Z2number t) = Ok m' /\ m <= m').
Proof.
  intros He Ht. unfold getMinAmountOut.
  exists (expected * (10000 - t * 100) / 10000).
  assert (Hfloor : forall e, 0 <= e ->
            applySlippage e (Z2number t) = Ok (e * (10000 - t * 100) / 10000)).
  { intros e He'. rewrite applySlippage_integer by lia. f_equal.
    apply quot_floor; [apply Z.mul_nonneg_nonneg|]; lia. }
  split; [apply Hfloor; exact He|].
  split.
  { split; [apply Z.div_pos; nia|]. apply Z.div_le_upper_bound; nia. }
  split.
  { intros ->. replace (10000 - 100 * 100) with 0 by lia.
    rewrite Z.mul_0_r. reflexivity. }
  split.
  { intros Ht50.
    apply Z.div_le_lower_bound; [lia|].
    pose proof (floor_bounds expected 2 ltac:(lia)).
    assert (expected / 2 * 2 * 5000 <= expected * (10000 - t * 100)) by nia.
    assert (Hq : 2 * (expected * (10000 - t * 100) / 10000) + 1 >= expected / 2 * 2).
    { pose proof (floor_bounds (expected * (10000 - t * 100)) 10000 ltac:(lia)). nia. }
    pose proof (floor_bounds (expected * (10000 - t * 100)) 10000 ltac:(lia)). nia. }
  intros expected' Hle.
  exists (expected' * (10000 - t * 100) / 10000).
  split; [apply Hfloor; lia|].
  apply Z.div_le_mono; nia.
Qed.

Lemma getMinAmountOut_bounds_witness :
  exists m,
    getMinAmountOut 1000 (Z2number 5) = Ok m
    /\ 0 <= m <= 1000
    /\ (5 = 100 -> m = 0)
    /\ (5 <= 50 -> 1000 / 2 <= m)
    /\ (forall expected', 1000 <= expected' ->
        exists m', getMinAmountOut expected' (Z2number 5) = Ok m' /\ m <= m').
Proof.
  apply (getMinAmountOut_bounds 1000 5); lia.
Defined.

(** ** Swap parameters and the swap builder *)

(** X5. [validateSwapParams] accepts exactly the parameters with
    [0 < amountIn < 10^15], a positive expected output, and a tolerance that
    is left out or is neither below 0 nor above 50. The two comparisons are
    both false on NaN, so a NaN tolerance is accepted; the expected output has
    no upper limit. *)
Theorem validateSwapParams_accepts (params : SwapParams) :
  (isValid (validateSwapParams params) = true
   <-> 0 < sw_amountIn params < 10 ^ 15
       /\ 0 < sw_expectedAmountOut params
       /\ match sw_slippageTolerance params with
          | Some s => num_lt s (Z2number 0) = false /\ num_lt (Z2number 50) s = false
          | None => True
          end)
  /\ (0 < sw_amountIn params < 10 ^ 15 ->
      0 < sw_expectedAmountOut params ->
      sw_slippageTolerance params = Some S754_nan ->
      validateSwapParams params = {| isValid := true; errors := [] |}).
Proof.
  split.
  - unfold validateSwapParams. cbv zeta. rewrite isValid_finish, push_if_nil.
    destruct (sw_slippageTolerance params) as [s|].
    + rewrite !push_if_nil, orb_false_iff.
      unfold BN.lte, BN.gte, BN.pow.
      rewrite !Z.leb_gt. intuition lia.
    + rewrite !push_if_nil. unfold BN.lte, BN.gte, BN.pow.
      rewrite !Z.leb_gt. intuition lia.
  - intros Hin Hout Hs. unfold validateSwapParams. cbv zeta. rewrite Hs.
    unfold BN.lte, BN.gte, BN.pow.
    replace (sw_amountIn params <=? 0) with false by (symmetry; apply Z.leb_gt; lia).
    replace (sw_expectedAmountOut params <=? 0) with false
      by (symmetry; apply Z.leb_gt; lia).
    replace (10 ^ 15 <=? sw_amountIn params) with false
      by (symmetry; apply Z.leb_gt; lia).
    reflexivity.
Qed.

Lemma validateSwapParams_accepts_witness :
  validateSwapParams
    {| sw_poolStatePDA := mkPublicKey 11; sw_amountIn := 250;
       sw_expectedAmountOut := 1000; sw_inputTokenMint := mkPublicKey 12;
       sw_userAuthority := mkPublicKey 13; sw_userInputAccount := mkPublicKey 14;
       sw_userOutputAccount := mkPublicKey 15;
       sw_slippageTolerance := Some S754_nan |}
  = {| isValid := true; errors := [] |}.
Proof.
  apply (proj2 (validateSwapParams_accepts _)); simpl; [lia|lia|reflexivity].
Defined.

Lemma truthy_percent (t : Z) : 1 <= t <= 100 -> truthy (Z2number t) = true.
Proof.
  intros Ht.
  assert (Hall : forall_from 1 100 (fun t => truthy (Z2number t)) = true)
    by (vm_compute; reflexivity).
  exact (forall_from_spec _ _ _ Hall t ltac:(lia)).
Qed.

Lemma createSwapInstruction_built (params : SwapParams) (s : number) (minOut : Z) :
  match sw_slippageTolerance params with
  | Some s' => if truthy s' then s' else Z2number 1
  | None => Z2number 1
  end = s ->
  applySlippage (sw_expectedAmountOut params) s = Ok minOut ->
  0 <= sw_amountIn params < 2 ^ 64 ->
  0 <= minOut < 2 ^ 64 ->
  createSwapInstruction params
  = Ok {| keys :=
            [account (sw_userAuthority params) true true;
             account systemStatePDA false false;
             account (sw_poolStatePDA params) false true;
             account (sw_userInputAccount params) false true;
             account (sw_userOutputAccount params) false true;
             account TOKEN_PROGRAM_ID false false;
             account SystemProgram_programId false false;
             account mainTreasuryPDA false true;
             account (sw_inputTokenMint params) false false];
          programId := PROGRAM_ID;
          data := [9] ++ toBuffer (sw_inputTokenMint params)
                    ++ BN.le_bytes 8 (sw_amountIn params) ++ BN.le_bytes 8 minOut |}.
Proof.
  intros Hs Happ Hin Hout. unfold createSwapInstruction.
  rewrite deriveSystemStatePDA_value, bind_Ok.
  rewrite deriveMainTreasuryPDA_value, bind_Ok.
  cbv zeta. rewrite Hs, Happ, bind_Ok.
  rewrite (toArrayLike_u64 _ Hin), bind_Ok.
  rewrite (toArrayLike_u64 _ Hout), bind_Ok.
  reflexivity.
Qed.

(** X6. Parameters that [validateSwapParams] accepts, with a whole-number
    tolerance (or none) and an expected output that fits 64 bits, always
    build: [createSwapInstruction] returns an instruction of 49 payload bytes
    and 9 accounts whose minimum output is the expected output reduced by the
    tolerance (by the default 1 per cent when the tolerance is 0 or left
    out), never more than the expected output. *)
Theorem validated_swap_builds (params : SwapParams) (t : Z) :
  isValid (validateSwapParams params) = true ->
  sw_slippageTolerance params = None
  \/ (0 <= t <= 50 /\ sw_slippageTolerance params = Some (Z2number t)) ->
  sw_expectedAmountOut params < 2 ^ 64 ->
  exists instr minAmountOut,
    createSwapInstruction params = Ok instr
    /\ data instr
       = [9] ++ toBuffer (sw_inputTokenMint params)
           ++ BN.le_bytes 8 (sw_amountIn params) ++ BN.le_bytes 8 minAmountOut
    /\ length (data instr) = 49%nat
    /\ length (keys instr) = 9%nat
    /\ minAmountOut
       = sw_expectedAmountOut params
         * (10000 - (match sw_slippageTolerance params with
                     | Some _ => if t =? 0 then 1 else t
                     | None => 1
                     end) * 100) / 10000
    /\ 0 <= minAmountOut <= sw_expectedAmountOut params.
Proof.
  intros Hvalid Htol Hexp.
  apply (proj1 (validateSwapParams_accepts params)) in Hvalid
    as (Hin & Hout & _).
  set (expected := sw_expectedAmountOut params) in *.
  set (eff := match sw_slippageTolerance params with
              | Some _ => if t =? 0 then 1 else t
              | None => 1
              end).
  assert (Heff : 1 <= eff <= 50).
  { subst eff. destruct Htol as [-> | [Ht ->]]; [lia|].
    destruct (Z.eqb_spec t 0); lia. }
  assert (Hdefault :
    match sw_slippageTolerance params with
    | Some s' => if truthy s' then s' else Z2number 1
    | None => Z2number 1
    end = Z2number eff).
  { subst eff. destruct Htol as [-> | [Ht ->]]; [reflexivity|].
    destruct (Z.eqb_spec t 0) as [-> | Hne]; [reflexivity|].
    now rewrite truthy_percent by lia. }
  assert (Happ : applySlippage expected (Z2number eff)
                 = Ok (expected * (10000 - eff * 100) / 10000)).
  { rewrite applySlippage_integer by lia. f_equal.
    apply quot_floor; [apply Z.mul_nonneg_nonneg|]; lia. }
  assert (Hmin : 0 <= expected * (10000 - eff * 100) / 10000 <= expected).
  { split; [apply Z.div_pos; nia|apply Z.div_le_upper_bound; nia]. }
  pose proof (createSwapInstruction_built params _ _ Hdefault Happ
                ltac:(lia) ltac:(lia)) as Hbuilt.
  eexists. exists (expected * (10000 - eff * 100) / 10000).
  split; [exact Hbuilt|]. cbn [data keys].
  split; [reflexivity|].
  split.
  { rewrite !length_app, !length_le_bytes, length_toBuffer. reflexivity. }
  split; [reflexivity|].
  split; [reflexivity|exact Hmin].
Qed.

Lemma validated_swap_builds_witness :
  exists instr minAmountOut,
    createSwapInstruction
      {| sw_poolStatePDA := mkPublicKey 11; sw_amountIn := 250;
         sw_expectedAmountOut := 1000; sw_inputTokenMint := mkPublicKey 12;
         sw_userAuthority := mkPublicKey 13; sw_userInputAccount := mkPublicKey 14;
         sw_userOutputAccount := mkPublicKey 15;
         sw_slippageTolerance := Some (Z2number 5) |} = Ok instr
    /\ data instr
       = [9] ++ toBuffer (mkPublicKey 12)
           ++ BN.le_bytes 8 250 ++ BN.le_bytes 8 minAmountOut
    /\ length (data instr) = 49%nat
    /\ length (keys instr) = 9%nat
    /\ minAmountOut = 1000 * (10000 - (if 5 =? 0 then 1 else 5) * 100) / 10000
    /\ 0 <= minAmountOut <= 1000.
Proof.
  apply (validated_swap_builds
           {| sw_poolStatePDA := mkPublicKey 11; sw_amountIn := 250;
              sw_expectedAmountOut := 1000; sw_inputTokenMint := mkPublicKey 12;
              sw_userAuthority := mkPublicKey 13; sw_userInputAccount := mkPublicKey 14;
              sw_userOutputAccount := mkPublicKey 15;
              sw_slippageTolerance := Some (Z2number 5) |} 5).
  - vm_compute. reflexivity.
  - right. split; [lia|reflexivity].
  - simpl. lia.
Defined.

Lemma byteLength_over_u64 (a : Z) : 2 ^ 64 <= a -> 8 < BN.byteLength a.
Proof.
  intros Ha. unfold BN.byteLength, BN.bitLength.
  destruct (Z.eqb_spec a 0) as [->|_]; [lia|].
  rewrite Z.abs_eq by lia.
  assert (64 <= Z.log2 a) by (apply Z.log2_le_pow2; lia).
  assert (9 <= (Z.log2 a + 1 + 7) / 8) by (apply Z.div_le_lower_bound; lia).
  lia.
Qed.

(** X7. The validator puts no ceiling on the expected output, the builder
    does: with the tolerance left out and an expected output of 2^65 or more,
    [createSwapInstruction] raises the bn.js assertion "byte array longer
    than desired length", although [validateSwapParams] accepts such
    parameters whenever the input amount is in range. *)
Theorem swap_builder_raises_beyond_u64 (params : SwapParams) :
  sw_slippageTolerance params = None ->
  0 <= sw_amountIn params < 2 ^ 64 ->
  2 ^ 65 <= sw_expectedAmountOut params ->
  createSwapInstruction params
  = Throw (AssertionFailed "byte array longer than desired length")
  /\ (0 < sw_amountIn params < 10 ^ 15 ->
      isValid (validateSwapParams params) = true).
Proof.
  intros Hs Hin Hexp. split.
  - unfold createSwapInstruction.
    rewrite deriveSystemStatePDA_value, bind_Ok.
    rewrite deriveMainTreasuryPDA_value, bind_Ok.
    cbv zeta. rewrite Hs.
    rewrite (applySlippage_integer _ 1) by lia. rewrite bind_Ok.
    rewrite (toArrayLike_u64 _ Hin), bind_Ok.
    change (10000 - 1 * 100) with 9900.
    set (m := Z.quot (sw_expectedAmountOut params * 9900) 10000).
    assert (Hm : 2 ^ 64 <= m).
    { subst m. rewrite quot_floor by lia. apply Z.div_le_lower_bound; lia. }
    unfold BN.toArrayLike_le.
    pose proof (byteLength_over_u64 m Hm).
    destruct (Z.leb_spec (BN.byteLength m) (Z.of_nat 8)); [simpl in *; lia|].
    reflexivity.
  - intros Hrange. apply (proj1 (validateSwapParams_accepts params)).
    rewrite Hs. lia.
Qed.

Lemma swap_builder_raises_beyond_u64_witness :
  createSwapInstruction
    {| sw_poolStatePDA := mkPublicKey 11; sw_amountIn := 250;
       sw_expectedAmountOut := 2 ^ 65; sw_inputTokenMint := mkPublicKey 12;
       sw_userAuthority := mkPublicKey 13; sw_userInputAccount := mkPublicKey 14;
       sw_userOutputAccount := mkPublicKey 15;
       sw_slippageTolerance := None |}
  = Throw (AssertionFailed "byte array longer than desired length").
Proof.
  refine (proj1 (swap_builder_raises_beyond_u64
                   {| sw_poolStatePDA := mkPublicKey 11; sw_amountIn := 250;
                      sw_expectedAmountOut := 2 ^ 65; sw_inputTokenMint := mkPublicKey 12;
                      sw_userAuthority := mkPublicKey 13;
                      sw_userInputAccount := mkPublicKey 14;
                      sw_userOutputAccount := mkPublicKey 15;
                      sw_slippageTolerance := None |} _ _ _)).
  - reflexivity.
  - simpl. lia.
  - simpl. lia.
Defined.

(** ** Deposits and withdrawals *)

Lemma toBuffer_inj (a b : PublicKey) :
  wf_key a -> wf_key b -> toBuffer a = toBuffer b -> a = b.
Proof.
  intros Ha Hb Heq.
  pose proof (be_value_toBuffer a Ha) as Hva.
  rewrite Heq, (be_value_toBuffer b Hb) in Hva.
  destruct a as [x], b as [y]. simpl in Hva. congruence.
Qed.

Lemma le_bytes8_inj (a b : Z) :
  0 <= a < 2 ^ 64 -> 0 <= b < 2 ^ 64 ->
  BN.le_bytes 8 a = BN.le_bytes 8 b -> a = b.
Proof.
  intros Ha Hb Heq.
  pose proof (le_bytes_value 8 a) as Hva.
  rewrite Heq, le_bytes_value in Hva.
  change (256 ^ Z.of_nat 8) with (2 ^ 64) in Hva.
  rewrite !Z.mod_small in Hva by assumption. congruence.
Qed.

Lemma toArrayLike_over_u64 (a : Z) :
  2 ^ 64 <= Z.abs a ->
  BN.toArrayLike_le a 8
  = Throw (AssertionFailed "byte array longer than desired length").
Proof.
  intros Ha. unfold BN.toArrayLike_le.
  assert (Hb : BN.byteLength a = BN.byteLength (Z.abs a)).
  { unfold BN.byteLength, BN.bitLength. rewrite Z.abs_idemp.
    destruct a; reflexivity. }
  pose proof (byteLength_over_u64 (Z.abs a) Ha).
  destruct (Z.leb_spec (BN.byteLength a) (Z.of_nat 8)); [simpl in *; lia|].
  reflexivity.
Qed.

Lemma toArrayLike_opp (a : Z) (len : nat) :
  BN.toArrayLike_le (- a) len = BN.toArrayLike_le a len.
Proof.
  unfold BN.toArrayLike_le, BN.byteLength, BN.bitLength.
  rewrite Z.abs_opp. destruct a; reflexivity.
Qed.

Lemma createDepositInstruction_built (params : LiquidityParams) :
  0 <= lq_depositAmount params < 2 ^ 64 ->
  createDepositInstruction params
  = Ok {| keys :=
            [account (lq_userAuthority params) true true;
             account systemStatePDA false false;
             account (lq_poolStatePDA params) false true;
             account (lq_userTokenAccount params) false true;
             account TOKEN_PROGRAM_ID false false;
             account SystemProgram_programId false false;
             account mainTreasuryPDA false true;
             account (lq_depositTokenMint params) false false;
             account (lq_userLpAccount params) false true];
          programId := PROGRAM_ID;
          data := [7] ++ toBuffer (lq_depositTokenMint params)
                    ++ BN.le_bytes 8 (lq_depositAmount params) |}.
Proof.
  intros Ha. unfold createDepositInstruction.
  rewrite deriveSystemStatePDA_value, bind_Ok.
  rewrite deriveMainTreasuryPDA_value, bind_Ok.
  rewrite (toArrayLike_u64 _ Ha), bind_Ok. reflexivity.
Qed.

(** X8. For an amount that fits 64 bits, [createDepositInstruction] builds a
    payload of 41 bytes (opcode 7, the 32 bytes of the mint, the amount in 8
    little-endian bytes) and 9 accounts. Nothing is lost in the encoding: two
    deposits with the same payload have the same mint and the same amount. *)
Theorem deposit_payload_is_injective (p q : LiquidityParams) :
  0 <= lq_depositAmount p < 2 ^ 64 -> 0 <= lq_depositAmount q < 2 ^ 64 ->
  wf_key (lq_depositTokenMint p) -> wf_key (lq_depositTokenMint q) ->
  exists ip iq,
    createDepositInstruction p = Ok ip
    /\ createDepositInstruction q = Ok iq
    /\ data ip = [7] ++ toBuffer (lq_depositTokenMint p)
                   ++ BN.le_bytes 8 (lq_depositAmount p)
    /\ length (data ip) = 41%nat
    /\ length (keys ip) = 9%nat
    /\ (data ip = data iq ->
        lq_depositTokenMint p = lq_depositTokenMint q
        /\ lq_depositAmount p = lq_depositAmount q).
Proof.
  intros Hp Hq Hwp Hwq.
  eexists. eexists.
  split; [apply createDepositInstruction_built; exact Hp|].
  split; [apply createDepositInstruction_built; exact Hq|].
  cbn [data keys].
  split; [reflexivity|].
  split; [rewrite !length_app, length_le_bytes, length_toBuffer; reflexivity|].
  split; [reflexivity|].
  intros Heq. apply (app_inv_head [7]) in Heq.
  apply app_inj_1 in Heq as [Hmint Hamount];
    [|now rewrite !length_toBuffer].
  split; [now apply toBuffer_inj|now apply le_bytes8_inj].
Qed.

Lemma deposit_payload_is_injective_witness :
  exists ip iq,
    createDepositInstruction
      {| lq_poolStatePDA := mkPublicKey 1; lq_depositAmount := 5000;
         lq_depositTokenMint := mkPublicKey 2; lq_userAuthority := mkPublicKey 3;
         lq_userTokenAccount := mkPublicKey 4; lq_userLpAccount := mkPublicKey 5 |}
    = Ok ip
    /\ createDepositInstruction
         {| lq_poolStatePDA := mkPublicKey 1; lq_depositAmount := 7000;
            lq_depositTokenMint := mkPublicKey 2; lq_userAuthority := mkPublicKey 3;
            lq_userTokenAccount := mkPublicKey 4; lq_userLpAccount := mkPublicKey 5 |}
       = Ok iq
    /\ data ip = [7] ++ toBuffer (mkPublicKey 2) ++ BN.le_bytes 8 5000
    /\ length (data ip) = 41%nat
    /\ length (keys ip) = 9%nat
    /\ (data ip = data iq -> mkPublicKey 2 = mkPublicKey 2 /\ 5000 = 7000).
Proof.
  apply (deposit_payload_is_injective
           {| lq_poolStatePDA := mkPublicKey 1; lq_depositAmount := 5000;
              lq_depositTokenMint := mkPublicKey 2; lq_userAuthority := mkPublicKey 3;
              lq_userTokenAccount := mkPublicKey 4; lq_userLpAccount := mkPublicKey 5 |}
           {| lq_poolStatePDA := mkPublicKey 1; lq_depositAmount := 7000;
              lq_depositTokenMint := mkPublicKey 2; lq_userAuthority := mkPublicKey 3;
              lq_userTokenAccount := mkPublicKey 4; lq_userLpAccount := mkPublicKey 5 |});
    simpl; unfold wf_key; simpl; lia.
Defined.

(** X9. [createWithdrawInstruction] writes the magnitude of the amount and
    not its sign: a negative amount builds the very instruction its absolute
    value builds. A magnitude of 2^64 or more raises the bn.js assertion;
    below that the payload is opcode 8, the mint and the magnitude. *)
Theorem withdraw_amount_sign_and_range
    (pool mint user lpAccount tokenAccount : PublicKey) (amount : Z) :
  createWithdrawInstruction pool (- amount) mint user lpAccount tokenAccount
  = createWithdrawInstruction pool amount mint user lpAccount tokenAccount
  /\ (2 ^ 64 <= Z.abs amount ->
      createWithdrawInstruction pool amount mint user lpAccount tokenAccount
      = Throw (AssertionFailed "byte array longer than desired length"))
  /\ (Z.abs amount < 2 ^ 64 ->
      exists instr,
        createWithdrawInstruction pool amount mint user lpAccount tokenAccount
        = Ok instr
        /\ data instr = [8] ++ toBuffer mint ++ BN.le_bytes 8 (Z.abs amount)
        /\ length (keys instr) = 9%nat).
Proof.
  unfold createWithdrawInstruction.
  rewrite deriveSystemStatePDA_value, bind_Ok.
  rewrite deriveMainTreasuryPDA_value, bind_Ok.
  split; [now rewrite toArrayLike_opp|].
  split.
  - intros Hbig. now rewrite toArrayLike_over_u64.
  - intros Hsmall.
    assert (Hbytes : BN.toArrayLike_le amount 8 = Ok (BN.le_bytes 8 (Z.abs amount))).
    { destruct (Z.le_gt_cases 0 amount).
      - rewrite Z.abs_eq by lia. apply toArrayLike_u64. lia.
      - rewrite <- toArrayLike_opp, Z.abs_neq by lia. apply toArrayLike_u64. lia. }
    rewrite Hbytes, bind_Ok. eexists. repeat split.
Qed.

Lemma withdraw_amount_sign_and_range_witness :
  createWithdrawInstruction (mkPublicKey 1) (2 ^ 64) (mkPublicKey 2)
    (mkPublicKey 3) (mkPublicKey 4) (mkPublicKey 5)
  = Throw (AssertionFailed "byte array longer than desired length")
  /\ exists instr,
       createWithdrawInstruction (mkPublicKey 1) (-5) (mkPublicKey 2)
         (mkPublicKey 3) (mkPublicKey 4) (mkPublicKey 5) = Ok instr
       /\ data instr = [8] ++ toBuffer (mkPublicKey 2) ++ BN.le_bytes 8 (Z.abs (-5))
       /\ length (keys instr) = 9%nat.
Proof.
  split.
  - apply (proj1 (proj2 (withdraw_amount_sign_and_range
             (mkPublicKey 1) (mkPublicKey 2) (mkPublicKey 3) (mkPublicKey 4)
             (mkPublicKey 5) (2 ^ 64)))).
    simpl. lia.
  - apply (proj2 (proj2 (withdraw_amount_sign_and_range
             (mkPublicKey 1) (mkPublicKey 2) (mkPublicKey 3) (mkPublicKey 4)
             (mkPublicKey 5) (-5)))).
    simpl. lia.
Defined.

(** X10. [validateDepositParams] accepts exactly the amounts with
    [0 < amount < 10^15], reports at most one error, and every deposit it
    accepts is built by [createDepositInstruction] without raising. *)
Theorem validateDepositParams_accepts (params : LiquidityParams) :
  (isValid (validateDepositParams params) = true
   <-> 0 < lq_depositAmount params < 10 ^ 15)
  /\ (length (errors (validateDepositParams params)) <= 1)%nat
  /\ (isValid (validateDepositParams params) = true ->
      exists instr, createDepositInstruction params = Ok instr).
Proof.
  assert (Hiff : isValid (validateDepositParams params) = true
                 <-> 0 < lq_depositAmount params < 10 ^ 15).
  { unfold validateDepositParams. cbv zeta.
    rewrite isValid_finish, !push_if_nil.
    unfold BN.lte, BN.gte, BN.pow. rewrite !Z.leb_gt. intuition lia. }
  split; [exact Hiff|]. split.
  - unfold validateDepositParams. cbv zeta. unfold finish. cbn [errors].
    rewrite !length_push_if. unfold BN.lte, BN.gte, BN.pow. cbn [length].
    destruct (Z.leb_spec (lq_depositAmount params) 0);
      destruct (Z.leb_spec (10 ^ 15) (lq_depositAmount params)); lia.
  - intros Hvalid. apply Hiff in Hvalid.
    eexists. apply createDepositInstruction_built. lia.
Qed.

Lemma validateDepositParams_accepts_witness :
  exists instr,
    createDepositInstruction
      {| lq_poolStatePDA := mkPublicKey 1; lq_depositAmount := 5000;
         lq_depositTokenMint := mkPublicKey 2; lq_userAuthority := mkPublicKey 3;
         lq_userTokenAccount := mkPublicKey 4; lq_userLpAccount := mkPublicKey 5 |}
    = Ok instr.
Proof.
  apply (proj2 (proj2 (validateDepositParams_accepts _))).
  vm_compute. reflexivity.
Defined.

(** X11. [validateWithdrawParams] accepts exactly the amounts with
    [0 < amount <= balance]; with a balance that fits 64 bits, every
    withdrawal it accepts is built by [createWithdrawInstruction] without
    raising. *)
Theorem validateWithdrawParams_accepts
    (withdrawAmount userLpBalance : Z)
    (pool mint user lpAccount tokenAccount : PublicKey) :
  (isValid (validateWithdrawParams withdrawAmount userLpBalance) = true
   <-> 0 < withdrawAmount <= userLpBalance)
  /\ (isValid (validateWithdrawParams withdrawAmount userLpBalance) = true ->
      userLpBalance < 2 ^ 64 ->
      exists instr,
        createWithdrawInstruction pool withdrawAmount mint user lpAccount tokenAccount
        = Ok instr
        /\ data instr = [8] ++ toBuffer mint ++ BN.le_bytes 8 withdrawAmount).
Proof.
  assert (Hiff : isValid (validateWithdrawParams withdrawAmount userLpBalance) = true
                 <-> 0 < withdrawAmount <= userLpBalance).
  { unfold validateWithdrawParams. cbv zeta.
    rewrite isValid_finish, !push_if_nil.
    unfold BN.lte, BN.gt. rewrite Z.leb_gt, Z.ltb_ge. intuition lia. }
  split; [exact Hiff|].
  intros Hvalid Hbal. apply Hiff in Hvalid.
  destruct (proj2 (proj2 (withdraw_amount_sign_and_range
              pool mint user lpAccount tokenAccount withdrawAmount)))
    as (instr & Hbuilt & Hdata & _); [lia|].
  exists instr. split; [exact Hbuilt|].
  rewrite Hdata, Z.abs_eq by lia. reflexivity.
Qed.

Lemma validateWithdrawParams_accepts_witness :
  exists instr,
    createWithdrawInstruction (mkPublicKey 1) 40 (mkPublicKey 2)
      (mkPublicKey 3) (mkPublicKey 4) (mkPublicKey 5) = Ok instr
    /\ data instr = [8] ++ toBuffer (mkPublicKey 2) ++ BN.le_bytes 8 40.
Proof.
  apply (proj2 (validateWithdrawParams_accepts 40 100 (mkPublicKey 1) (mkPublicKey 2)
                  (mkPublicKey 3) (mkPublicKey 4) (mkPublicKey 5))).
  - vm_compute. reflexivity.
  - lia.
Defined.

(** ** Pool creation *)

(** X12. [validatePoolCreationParams] accepts exactly two different tokens
    with both ratios in [1, 10^18 - 1]. Its four checks cannot all fail at
    once: it never reports more than three errors. *)
Theorem validatePoolCreationParams_accepts (params : PoolCreationParams) :
  (isValid (validatePoolCreationParams params) = true
   <-> 0 < pc_ratioA params < 10 ^ 18
       /\ 0 < pc_ratioB params < 10 ^ 18
       /\ _bn (pc_tokenAMint params) <> _bn (pc_tokenBMint params))
  /\ (length (errors (validatePoolCreationParams params)) <= 3)%nat.
Proof.
  split.
  - unfold validatePoolCreationParams. cbv zeta.
    rewrite isValid_finish, !push_if_nil, orb_false_iff.
    unfold equals, BN.lte, BN.gte, BN.eq, BN.pow.
    rewrite !Z.leb_gt, Z.eqb_neq. intuition lia.
  - unfold validatePoolCreationParams. cbv zeta. unfold finish. cbn [errors].
    rewrite !length_push_if. unfold BN.lte, BN.gte, BN.pow. cbn [length].
    destruct (Z.leb_spec (pc_ratioA params) 0);
      destruct (Z.leb_spec (pc_ratioB params) 0);
      destruct (Z.leb_spec (10 ^ 18) (pc_ratioA params));
      destruct (Z.leb_spec (10 ^ 18) (pc_ratioB params));
      destruct (equals (pc_tokenAMint params) (pc_tokenBMint params));
      cbn [orb]; lia.
Qed.

Lemma normalizeTokenOrder_idem (a b : PublicKey) :
  Buffer_toString (toBuffer a) <> Buffer_toString (toBuffer b) ->
  normalizeTokenOrder (fst (normalizeTokenOrder a b)) (snd (normalizeTokenOrder a b))
  = normalizeTokenOrder a b.
Proof.
  intros Hne. unfold normalizeTokenOrder at 2 3.
  destruct (Buffer_lt (toBuffer a) (toBuffer b)) eqn:Hab; cbn [fst snd].
  - unfold normalizeTokenOrder. now rewrite Hab.
  - rewrite (normalizeTokenOrder_comm b a) by congruence.
    unfold normalizeTokenOrder. now rewrite Hab.
Qed.

(** X13. For two tokens whose keys decode to different texts, the caller's
    argument order does not matter: [getPoolPDAs] returns the same accounts
    and [createInitializePoolInstruction] the same instruction for (A, B) and
    (B, A). Normalizing twice changes nothing, so the pool address that
    [getPoolPDAs] reports is the one [derivePoolStatePDA] gives for the
    caller's own order, next to the normalized pair. *)
Theorem pool_accounts_ignore_argument_order
    (a b user : PublicKey) (ratioA ratioB : Z) :
  Buffer_toString (toBuffer a) <> Buffer_toString (toBuffer b) ->
  getPoolPDAs a b ratioA ratioB = getPoolPDAs b a ratioA ratioB
  /\ createInitializePoolInstruction
       {| pc_tokenAMint := a; pc_tokenBMint := b; pc_ratioA := ratioA;
          pc_ratioB := ratioB; pc_userAuthority := user |}
     = createInitializePoolInstruction
         {| pc_tokenAMint := b; pc_tokenBMint := a; pc_ratioA := ratioA;
            pc_ratioB := ratioB; pc_userAuthority := user |}
  /\ (forall r, getPoolPDAs a b ratioA ratioB = Ok r ->
        derivePoolStatePDA a b ratioA ratioB = Ok (poolStatePDA r, poolBump r)
        /\ normalizeTokenOrder a b = (normalizedTokenA r, normalizedTokenB r)).
Proof.
  intros Hne. split; [|split].
  - unfold getPoolPDAs. now rewrite (normalizeTokenOrder_comm a b Hne).
  - unfold createInitializePoolInstruction. cbn [pc_tokenAMint pc_tokenBMint].
    now rewrite (normalizeTokenOrder_comm a b Hne).
  - intros r.
    pose proof (normalizeTokenOrder_idem a b Hne) as Hidem.
    unfold getPoolPDAs.
    destruct (normalizeTokenOrder a b) as [mintA mintB] eqn:Hnorm.
    cbn [fst snd] in Hidem.
    assert (Hpool : derivePoolStatePDA mintA mintB ratioA ratioB
                    = derivePoolStatePDA a b ratioA ratioB).
    { unfold derivePoolStatePDA, poolStateSeeds. now rewrite Hidem, Hnorm. }
    rewrite Hpool.
    (* the derivations are opaque to the argument *)
    generalize (derivePoolStatePDA a b ratioA ratioB) as derived.
    generalize deriveTokenVaultPDAs as vaults.
    generalize deriveLPTokenMintPDAs as mints.
    intros mints vaults derived Hr.
    destruct derived as [[pool bump]|e]; [|discriminate].
    rewrite bind_Ok in Hr.
    destruct (vaults pool) as [[vaultA vaultB]|e]; [|discriminate].
    rewrite bind_Ok in Hr.
    destruct (mints pool) as [[lpA lpB]|e]; [|discriminate].
    rewrite bind_Ok in Hr. injection Hr as <-. split; reflexivity.
Qed.

Lemma pool_accounts_ignore_argument_order_witness :
  getPoolPDAs (mkPublicKey 1) (mkPublicKey 2) 1 160
  = getPoolPDAs (mkPublicKey 2) (mkPublicKey 1) 1 160.
Proof.
  apply (proj1 (pool_accounts_ignore_argument_order
                  (mkPublicKey 1) (mkPublicKey 2) (mkPublicKey 3) 1 160
                  ltac:(vm_compute; discriminate))).
Defined.

(** ** Fee consolidation and donations *)

Lemma size_list_to_set_le (l : list string) :
  (size (list_to_set l : gset string) <= length l)%nat.
Proof.
  induction l as [|x l IH]; [rewrite list_to_set_nil, size_empty; simpl; lia|].
  rewrite list_to_set_cons, size_union_alt, size_singleton. cbn [length].
  pose proof (subseteq_size (list_to_set l ∖ {[x]}) (list_to_set l : gset string)
                ltac:(set_solver)).
  lia.
Qed.

Lemma size_list_to_set_NoDup (l : list string) :
  size (list_to_set l : gset string) = length l -> NoDup l.
Proof.
  induction l as [|x l IH]; intros Hsize; [constructor|].
  destruct (decide (x ∈ l)) as [Hin|Hnotin].
  - exfalso.
    assert (Heq : (list_to_set (x :: l) : gset string) = list_to_set l)
      by (rewrite list_to_set_cons; set_solver).
    rewrite Heq in Hsize. pose proof (size_list_to_set_le l).
    cbn [length] in Hsize. lia.
  - constructor; [exact Hnotin|]. apply IH.
    rewrite list_to_set_cons, size_union, size_singleton in Hsize by set_solver.
    cbn [length] in Hsize. lia.
Qed.

(** X14. For a list of well-formed keys, [validateConsolidationParams]
    accepts exactly the lists of 1 to 20 addresses without a repetition: any
    repeated address makes the list invalid. *)
Theorem validateConsolidationParams_accepts (pools : list PublicKey) :
  Forall wf_key pools ->
  (isValid (validateConsolidationParams pools) = true
   <-> (1 <= length pools <= 20)%nat /\ NoDup pools).
Proof.
  intros Hwf. unfold validateConsolidationParams. cbv zeta.
  rewrite isValid_finish, !push_if_nil, negb_false_iff.
  rewrite Nat.eqb_neq, Nat.ltb_ge, Nat.eqb_eq.
  split.
  - intros (Hsize & Hmax & Hmin & _).
    split; [lia|].
    apply (NoDup_fmap_1 toBase58).
    apply size_list_to_set_NoDup. now rewrite length_map.
  - intros [Hlen Hnd].
    rewrite (validateConsolidationParams_distinct pools Hwf Hnd).
    repeat split; lia.
Qed.

Lemma validateConsolidationParams_accepts_witness :
  isValid (validateConsolidationParams
             [mkPublicKey 1; mkPublicKey 2; mkPublicKey 1]) = true
  <-> (1 <= length [mkPublicKey 1; mkPublicKey 2; mkPublicKey 1] <= 20)%nat
      /\ NoDup [mkPublicKey 1; mkPublicKey 2; mkPublicKey 1].
Proof.
  apply validateConsolidationParams_accepts.
  repeat constructor; vm_compute; congruence.
Defined.

(** X15. [createConsolidatePoolFeesInstruction] keeps every address of a
    list of at most 20: the count field is the length of the list and all
    addresses follow the three fixed accounts, writable and not signing. It
    does not check the list: the empty list builds an instruction with count
    0 and the three fixed accounts alone. *)
Theorem consolidation_keeps_short_lists (pools : list PublicKey) :
  (length pools <= 20)%nat ->
  createConsolidatePoolFeesInstruction pools
  = Ok {| keys := [account systemStatePDA false false;
                   account mainTreasuryPDA false true;
                   account SystemProgram_programId false false]
                  ++ map (fun p => account p false true) pools;
          programId := PROGRAM_ID;
          data := [15] ++ BN.le_bytes 4 (Z.of_nat (length pools)) |}
  /\ (pools = [] ->
      exists instr,
        createConsolidatePoolFeesInstruction pools = Ok instr
        /\ data instr = [15; 0; 0; 0; 0] /\ length (keys instr) = 3%nat).
Proof.
  intros Hlen.
  assert (Hbuilt := createConsolidatePoolFeesInstruction_built pools).
  rewrite firstn_all2 in Hbuilt by exact Hlen.
  split; [exact Hbuilt|].
  intros ->. eexists. split; [exact Hbuilt|]. split; reflexivity.
Qed.

Lemma consolidation_keeps_short_lists_witness :
  createConsolidatePoolFeesInstruction [mkPublicKey 1; mkPublicKey 2]
  = Ok {| keys := [account systemStatePDA false false;
                   account mainTreasuryPDA false true;
                   account SystemProgram_programId false false]
                  ++ map (fun p => account p false true)
                         [mkPublicKey 1; mkPublicKey 2];
          programId := PROGRAM_ID;
          data := [15] ++ BN.le_bytes 4 (Z.of_nat (length [mkPublicKey 1; mkPublicKey 2])) |}.
Proof.
  apply (proj1 (consolidation_keeps_short_lists [mkPublicKey 1; mkPublicKey 2]
                  ltac:(simpl; lia))).
Defined.

(** X16. [validateDonationParams] accepts exactly the donations of 0.1 to
    1000 SOL (10^8 to 10^12 lamports) whose message is left out or has at most
    200 UTF-16 code units, whatever text the minimum is printed with. Every
    donation it accepts is built by [createDonateSolInstruction] without
    raising, and the message then goes into the payload untruncated. *)
Theorem validateDonationParams_accepts
    (Number_toString : number -> string) (params : DonationParams) :
  (isValid (validateDonationParams Number_toString params) = true
   <-> 10 ^ 8 <= dn_amount params <= 10 ^ 12
       /\ (length (match dn_message params with Some m => m | None => [] end)
           <= 200)%nat)
  /\ (isValid (validateDonationParams Number_toString params) = true ->
      wf_string (match dn_message params with Some m => m | None => [] end) ->
      exists instr,
        createDonateSolInstruction params = Ok instr
        /\ data instr
           = [13] ++ BN.le_bytes 8 (dn_amount params)
               ++ BN.le_bytes 4
                    (Z.of_nat (length (utf8_encode
                       (match dn_message params with Some m => m | None => [] end))))
               ++ utf8_encode
                    (match dn_message params with Some m => m | None => [] end)).
Proof.
  assert (Hiff : isValid (validateDonationParams Number_toString params) = true
     <-> 10 ^ 8 <= dn_amount params <= 10 ^ 12
         /\ (length (match dn_message params with Some m => m | None => [] end)
             <= 200)%nat).
  { unfold validateDonationParams. cbv zeta.
    rewrite isValid_finish, !push_if_nil.
    unfold BN.lt, BN.gt, BN.mul, FEES.MIN_DONATION_AMOUNT.
    rewrite !Z.ltb_ge.
    destruct (dn_message params) as [[|c m]|]; cbn [length];
      rewrite ?Nat.ltb_ge; intuition lia. }
  split; [exact Hiff|].
  intros Hvalid Hwf. apply Hiff in Hvalid as [Hamount Hlen].
  destruct (createDonateSolInstruction_built params ltac:(lia) Hwf) as [_ Hbuilt].
  cbv zeta in Hbuilt. unfold slice0 in Hbuilt.
  rewrite firstn_all2 in Hbuilt by exact Hlen.
  eexists. split; [exact Hbuilt|reflexivity].
Qed.

Lemma validateDonationParams_accepts_witness :
  exists instr,
    createDonateSolInstruction
      {| dn_donor := mkPublicKey 5; dn_amount := 100000000;
         dn_message := Some (js "thanks") |} = Ok instr
    /\ data instr
       = [13] ++ BN.le_bytes 8 100000000
           ++ BN.le_bytes 4 (Z.of_nat (length (utf8_encode (js "thanks"))))
           ++ utf8_encode (js "thanks").
Proof.
  apply (proj2 (validateDonationParams_accepts (fun _ => "0.1"%string)
                  {| dn_donor := mkPublicKey 5; dn_amount := 100000000;
                     dn_message := Some (js "thanks") |})).
  - vm_compute. reflexivity.
  - simpl. unfold wf_string. repeat constructor; vm_compute; congruence.
Defined.

(** X17. [calculateDonationComputeUnits] is a step function of the amount
    that never decreases and stays between 5000 and the 120000 units of
    [COMPUTE_UNITS.DONATE_SOL]; it reaches the top from 100 SOL on. *)
Theorem calculateDonationComputeUnits_steps (amount amount' : Z) :
  amount <= amount' ->
  calculateDonationComputeUnits amount <= calculateDonationComputeUnits amount'
  /\ 5000 <= calculateDonationComputeUnits amount <= COMPUTE_UNITS.DONATE_SOL
  /\ (calculateDonationComputeUnits amount = COMPUTE_UNITS.DONATE_SOL
      <-> 100 * 10 ^ 9 <= amount).
Proof.
  intros Hle. unfold calculateDonationComputeUnits, COMPUTE_UNITS.DONATE_SOL,
    BN.gte, BN.mul. cbv zeta.
  change (1000000000 * 100) with 100000000000.
  change (1000000000 * 10) with 10000000000.
  change (100 * 10 ^ 9) with 100000000000.
  destruct (Z.leb_spec 100000000000 amount);
    destruct (Z.leb_spec 10000000000 amount);
    destruct (Z.leb_spec 1000000000 amount);
    destruct (Z.leb_spec 100000000000 amount');
    destruct (Z.leb_spec 10000000000 amount');
    destruct (Z.leb_spec 1000000000 amount'); lia.
Qed.

Lemma calculateDonationComputeUnits_steps_witness :
  calculateDonationComputeUnits 5 <= calculateDonationComputeUnits (2 * 10 ^ 9).
Proof.
  apply (calculateDonationComputeUnits_steps 5 (2 * 10 ^ 9)). lia.
Defined.

(** ** Error codes *)

Lemma drop_prefix_starts_with (p : JSString) :
  forall s r, drop_prefix p s = Some r -> starts_with p s = true.
Proof.
  induction p as [|x p IH]; intros [|y s] r H; simpl in *;
    try reflexivity; try discriminate.
  destruct (x =? y); [|discriminate]. simpl. now apply (IH s r).
Qed.

Lemma match_error_includes (s : JSString) :
  includes s (js "Custom program error: 0x") = false -> match_error s = None.
Proof.
  induction s as [|c s IH]; intros Hinc.
  - reflexivity.
  - cbn [includes] in Hinc. apply orb_false_iff in Hinc as [Hstart Hrest].
    cbn [match_error]. unfold match_error_here.
    destruct (drop_prefix (js "Custom program error: 0x") (c :: s)) as [r|] eqn:Hdrop.
    + apply drop_prefix_starts_with in Hdrop. congruence.
    + now apply IH.
Qed.

Lemma parseErrorCode_none (logs : list JSString) :
  (forall l, In l logs -> match_error l = None) -> parseErrorCode logs = None.
Proof.
  induction logs as [|l logs IH]; intros Hnone; [reflexivity|].
  cbn [parseErrorCode]. rewrite (Hnone l) by now left.
  apply IH. intros l' Hin. apply Hnone. now right.
Qed.

Lemma parseErrorCode_first (pre post : list JSString) (log m1 : JSString) :
  (forall l, In l pre -> match_error l = None) ->
  match_error log = Some m1 ->
  parseErrorCode (pre ++ log :: post) = Some (parseInt16 m1).
Proof.
  intros Hpre Hlog. induction pre as [|l pre IH]; cbn [app parseErrorCode].
  - now rewrite Hlog.
  - rewrite (Hpre l) by now left.
    apply IH. intros l' Hin. apply Hpre. now right.
Qed.

(** X18. [parseErrorCode] returns the code of the FIRST line that carries
    "Custom program error: 0x" followed by hex digits, whatever the later
    lines say, and [null] when no line contains that text. The match is
    case-sensitive: a line with a lower-case "custom program error" gives
    [null]. *)
Theorem parseErrorCode_first_match_wins (pre post : list JSString) (log m1 : JSString) :
  ((forall l, In l pre -> match_error l = None) ->
   match_error log = Some m1 ->
   parseErrorCode (pre ++ log :: post) = Some (parseInt16 m1))
  /\ (forall logs,
        (forall l, In l logs -> includes l (js "Custom program error: 0x") = false) ->
        parseErrorCode logs = None)
  /\ parseErrorCode [js "Program failed: Custom program error: 0x1776";
                     js "Program failed: Custom program error: 0x1777"]
     = Some (Z2number 6006)
  /\ parseErrorCode [js "Program failed: custom program error: 0x1776"] = None.
Proof.
  split; [apply parseErrorCode_first|].
  split.
  - intros logs Habsent. apply parseErrorCode_none.
    intros l Hin. apply match_error_includes, Habsent, Hin.
  - split; vm_compute; reflexivity.
Qed.

Lemma parseErrorCode_first_match_wins_witness :
  parseErrorCode
    ([js "Program log: Instruction: Swap"]
       ++ js "failed: Custom program error: 0x1778"
       :: [js "Custom program error: 0x1"])
  = Some (parseInt16 (js "1778")).
Proof.
  apply (proj1 (parseErrorCode_first_match_wins
                  [js "Program log: Instruction: Swap"]
                  [js "Custom program error: 0x1"]
                  (js "failed: Custom program error: 0x1778") (js "1778"))).
  - intros l [<-|[]]. vm_compute. reflexivity.
  - vm_compute. reflexivity.
Defined.

(** X19. For every integer code from 0 to 9999, [formatError] returns the
    fixed message of the table when the code is one of 6006 to 6016, and
    "Unknown error code: " followed by the text of the number otherwise. So
    the first error line of a log set with a code in the table is formatted
    as that table entry. *)
Theorem formatError_table
    (Number_toString : number -> string) (code : Z) :
  0 <= code < 10000 ->
  formatError Number_toString (Z2number code)
  = (if (6006 <=? code) && (code <=? 6016)
     then nth (Z.to_nat (code - 6006)) (map snd errorMap) ""%string
     else ("Unknown error code: " ++ Number_toString (Z2number code))%string)
  /\ (forall pre post log m1,
        (forall l, In l pre -> match_error l = None) ->
        match_error log = Some m1 ->
        hex_value m1 = code ->
        6006 <= code <= 6016 ->
        exists n,
          parseErrorCode (pre ++ log :: post) = Some n
          /\ formatError Number_toString n
             = nth (Z.to_nat (code - 6006)) (map snd errorMap) ""%string).
Proof.
  intros Hcode.
  assert (Hall : forall_from 0 (Z.to_nat 10000)
            (fun c => match errorMap_get (Z2number c) with
                      | Some msg =>
                          (6006 <=? c) && (c <=? 6016)
                          && String.eqb msg
                               (nth (Z.to_nat (c - 6006)) (map snd errorMap) ""%string)
                          && negb (String.eqb msg "")
                      | None => negb ((6006 <=? c) && (c <=? 6016))
                      end) = true) by (vm_compute; reflexivity).
  pose proof (forall_from_spec _ _ _ Hall code ltac:(lia)) as H.
  cbv beta in H.
  assert (Hfmt : formatError Number_toString (Z2number code)
     = (if (6006 <=? code) && (code <=? 6016)
        then nth (Z.to_nat (code - 6006)) (map snd errorMap) ""%string
        else ("Unknown error code: " ++ Number_toString (Z2number code))%string)).
  { unfold formatError.
    destruct (errorMap_get (Z2number code)) as [msg|].
    - apply andb_prop in H as [H Hne]. apply andb_prop in H as [Hrange Heq].
      rewrite Hrange. apply String.eqb_eq in Heq. rewrite <- Heq.
      destruct msg; [discriminate|reflexivity].
    - apply negb_true_iff in H. rewrite H. reflexivity. }
  split; [exact Hfmt|].
  intros pre post log m1 Hpre Hlog Hval Hrange.
  exists (Z2number code). split.
  - rewrite (parseErrorCode_first pre post log m1 Hpre Hlog).
    unfold parseInt16. now rewrite Hval.
  - rewrite Hfmt.
    replace ((6006 <=? code) && (code <=? 6016)) with true; [reflexivity|].
    symmetry. apply andb_true_iff. split; apply Z.leb_le; lia.
Qed.

Lemma formatError_table_witness :
  formatError (fun _ => "?"%string) (Z2number 6008)
  = "Slippage tolerance exceeded"%string.
Proof.
  apply (proj1 (formatError_table (fun _ => "?"%string) 6008 ltac:(lia))).
Defined.

(** ** Keys *)

(** X20. On well-formed keys the two equality tests of the library agree:
    [keysEqual], which compares Base58 texts, holds exactly when [equals],
    which compares the integers, does, and exactly when the keys are equal. *)
Theorem keysEqual_agrees_with_equals (a b : PublicKey) :
  wf_key a -> wf_key b ->
  keysEqual a b = equals a b /\ (keysEqual a b = true <-> a = b).
Proof.
  intros Ha Hb. unfold keysEqual, equals, BN.eq.
  destruct (String.eqb_spec (toBase58 a) (toBase58 b)) as [Heq|Hne].
  - apply (toBase58_inj a b Ha Hb) in Heq. subst b.
    rewrite Z.eqb_refl. tauto.
  - destruct (Z.eqb_spec (_bn a) (_bn b)) as [Hbn|Hbn].
    + exfalso. apply Hne. destruct a, b. simpl in Hbn. now subst.
    + split; [reflexivity|]. split; [discriminate|].
      intros ->. contradiction.
Qed.

Lemma keysEqual_agrees_with_equals_witness :
  keysEqual PROGRAM_ID TOKEN_PROGRAM_ID = equals PROGRAM_ID TOKEN_PROGRAM_ID
  /\ (keysEqual PROGRAM_ID TOKEN_PROGRAM_ID = true <-> PROGRAM_ID = TOKEN_PROGRAM_ID).
Proof.
  apply keysEqual_agrees_with_equals; vm_compute; split; congruence.
Defined.

(** ** Version text *)

Lemma version_reading_absent (label : JSString) (logs : list JSString) :
  (forall log, In log logs -> includes log label = false) ->
  latest (version_reading label) logs None = None.
Proof.
  intros Habsent. apply latest_none.
  intros log Hin. unfold version_reading. now rewrite (Habsent log Hin).
Qed.

(** X21. When none of the four labels occurs on any line (in particular for
    the empty log list), [extractVersionFromLogs] returns the text "Version
    information not available in logs". A label with nothing after it is not
    that case: the key is set to the empty text and the result is the empty
    string. *)
Theorem extractVersionFromLogs_placeholder (logs : list JSString) :
  ((forall log, In log logs ->
      includes log (js "Contract Name:") = false
      /\ includes log (js "Contract Version:") = false
      /\ includes log (js "Build Date:") = false
      /\ includes log (js "Rust Version:") = false) ->
   extractVersionFromLogs logs = js "Version information not available in logs")
  /\ extractVersionFromLogs [] = js "Version information not available in logs"
  /\ extractVersionFromLogs [js "Program log: Contract Version:"] = [].
Proof.
  split; [|split; vm_compute; reflexivity].
  intros Habsent. unfold extractVersionFromLogs, format_version, no_keys.
  rewrite read_name, read_version, read_buildDate, read_rustVersion.
  rewrite !version_reading_absent; [reflexivity| | | |];
    intros log Hin; apply (Habsent log Hin).
Qed.

Lemma extractVersionFromLogs_placeholder_witness :
  extractVersionFromLogs [js "Program log: Total Balance: 42"; js "ok"]
  = js "Version information not available in logs".
Proof.
  apply (proj1 (extractVersionFromLogs_placeholder
                  [js "Program log: Total Balance: 42"; js "ok"])).
  intros log [<-|[<-|[]]]; vm_compute; repeat split.
Defined.

(** ** Price impact *)

Lemma toNumber_small (a : Z) : Z.abs a < 2 ^ 53 -> BN.toNumber a = Ok (Z2number a).
Proof.
  intros Ha. unfold BN.toNumber, BN.bitLength.
  destruct (Z.eqb_spec a 0) as [->|Hne]; [reflexivity|].
  assert (Z.log2 (Z.abs a) < 53) by (apply Z.log2_lt_pow2; lia).
  destruct (Z.leb_spec (Z.log2 (Z.abs a) + 1) 53); [reflexivity|lia].
Qed.

Lemma toNumber_big (a : Z) :
  2 ^ 53 <= Z.abs a ->
  BN.toNumber a
  = Throw (AssertionFailed "Number can only safely store up to 53 bits").
Proof.
  intros Ha. unfold BN.toNumber, BN.bitLength.
  destruct (Z.eqb_spec a 0) as [->|Hne]; [simpl in Ha; lia|].
  assert (53 <= Z.log2 (Z.abs a)) by (apply Z.log2_le_pow2; lia).
  destruct (Z.leb_spec (Z.log2 (Z.abs a) + 1) 53); [lia|reflexivity].
Qed.

(** X22. Edge cases of [calculateSwapWithPriceImpact], for the input token A.
    A zero balance of token A raises the bn.js division assertion. A balance
    of 2^53 or more, on either side, raises "Number can only safely store up
    to 53 bits", because the price is taken through [toNumber]. An input
    amount of 0 is not an error: the output is 0, the fee is 27150 and the
    price impact is NaN, from 0 / 0. *)
Theorem calculateSwapWithPriceImpact_edges
    (amountIn poolBalanceA poolBalanceB : Z) (tokenA : PublicKey) :
  calculateSwapWithPriceImpact amountIn tokenA 0 poolBalanceB tokenA
  = Throw (AssertionFailed "Assertion failed")
  /\ (0 < poolBalanceA -> 0 < poolBalanceB ->
      2 ^ 53 <= poolBalanceA \/ 2 ^ 53 <= poolBalanceB ->
      calculateSwapWithPriceImpact amountIn tokenA poolBalanceA poolBalanceB tokenA
      = Throw (AssertionFailed "Number can only safely store up to 53 bits"))
  /\ (0 < poolBalanceA < 2 ^ 53 -> 0 < poolBalanceB < 2 ^ 53 ->
      calculateSwapWithPriceImpact 0 tokenA poolBalanceA poolBalanceB tokenA
      = Ok {| sr_amountIn := 0; sr_amountOut := 0;
              sr_priceImpact := S754_nan; sr_fees := 27150 |}).
Proof.
  unfold calculateSwapWithPriceImpact, equals, BN.eq.
  rewrite Z.eqb_refl. cbv zeta.
  split; [reflexivity|]. split.
  - intros HA HB Hbig.
    rewrite div_nonzero, bind_Ok by lia.
    destruct (Z.le_gt_cases (2 ^ 53) poolBalanceB) as [HbigB|HsmallB].
    + rewrite (toNumber_big poolBalanceB) by lia. reflexivity.
    + rewrite (toNumber_small poolBalanceB), bind_Ok by lia.
      rewrite (toNumber_big poolBalanceA) by lia. reflexivity.
  - intros HA HB.
    rewrite div_nonzero, bind_Ok by lia.
    rewrite (toNumber_small poolBalanceB), bind_Ok by lia.
    rewrite (toNumber_small poolBalanceA), bind_Ok by lia.
    unfold BN.mul. rewrite Z.mul_0_l.
    replace (Z.quot 0 poolBalanceA) with 0 by (symmetry; apply Z.quot_0_l; lia).
    change (BN.toNumber 0) with (Ok (Z2number 0)). rewrite !bind_Ok.
    reflexivity.
Qed.

Lemma calculateSwapWithPriceImpact_edges_witness :
  calculateSwapWithPriceImpact 0 (mkPublicKey 1) 1000 160000 (mkPublicKey 1)
  = Ok {| sr_amountIn := 0; sr_amountOut := 0;
          sr_priceImpact := S754_nan; sr_fees := 27150 |}
  /\ calculateSwapWithPriceImpact 5 (mkPublicKey 1) (2 ^ 53) 160000 (mkPublicKey 1)
     = Throw (AssertionFailed "Number can only safely store up to 53 bits").
Proof.
  split.
  - apply (proj2 (proj2 (calculateSwapWithPriceImpact_edges 0 1000 160000
                           (mkPublicKey 1)))); lia.
  - apply (proj1 (proj2 (calculateSwapWithPriceImpact_edges 5 (2 ^ 53) 160000
                           (mkPublicKey 1)))); lia.
Defined.

(** ** Token amounts and messages *)

(** X23. For a token with at most 255 decimals, [validateTokenAmount] never
    raises and accepts exactly the amounts with 0 < amount < 10^(decimals+9),
    that is, strictly less than one billion whole tokens. *)
Theorem validateTokenAmount_range (amount : Z) (decimals : nat) :
  (decimals <= 255)%nat ->
  validateTokenAmount amount decimals
  = Ok ((0 <? amount) && (amount <? 10 ^ (Z.of_nat decimals + 9)))
  /\ validateTokenAmount (10 ^ (Z.of_nat decimals + 9)) decimals = Ok false
  /\ validateTokenAmount (10 ^ (Z.of_nat decimals + 9) - 1) decimals = Ok true.
Proof.
  intros Hd.
  assert (Hall : forall_from 0 256
            (fun d => match BN.ofNumber (SFadd 53 1024 (Z2number d) (Z2number 9)) with
                      | Ok e => e =? d + 9
                      | Throw _ => false
                      end) = true) by (vm_compute; reflexivity).
  pose proof (forall_from_spec _ _ _ Hall (Z.of_nat decimals) ltac:(lia)) as H.
  cbv beta in H.
  assert (Hform : forall a, validateTokenAmount a decimals
                            = Ok ((0 <? a) && (a <? 10 ^ (Z.of_nat decimals + 9)))).
  { intros a. unfold validateTokenAmount, BN.lte, BN.lt, BN.pow.
    destruct (BN.ofNumber (SFadd 53 1024 (Z2number (Z.of_nat decimals)) (Z2number 9)))
      as [e|]; [|discriminate].
    apply Z.eqb_eq in H. subst e. rewrite bind_Ok.
    destruct (Z.leb_spec a 0), (Z.ltb_spec 0 a); try lia; reflexivity. }
  assert (Hpos : 1 < 10 ^ (Z.of_nat decimals + 9)).
  { apply Z.pow_gt_1; lia. }
  rewrite !Hform. repeat split; f_equal.
  - rewrite Z.ltb_irrefl. apply andb_false_r.
  - apply andb_true_iff. split; apply Z.ltb_lt; lia.
Qed.

Lemma validateTokenAmount_range_witness :
  validateTokenAmount 1000000000000000 6
  = Ok ((0 <? 1000000000000000) && (1000000000000000 <? 10 ^ (Z.of_nat 6 + 9))).
Proof.
  apply (proj1 (validateTokenAmount_range 1000000000000000 6 ltac:(lia))).
Defined.

Lemma utf8_decode_ascii (s : Buffer) :
  Forall (fun c => 0 <= c < 128) s -> Buffer_toString s = s.
Proof.
  unfold Buffer_toString.
  induction 1 as [|c s Hc _ IH]; [reflexivity|].
  cbn [utf8_decode_from]. change (u_needed utf8_start =? 0) with true.
  cbv iota. unfold utf8_lead.
  destruct (Z.leb_spec c 127); [|lia].
  cbn [app]. now rewrite IH.
Qed.

(** X24. For a message of ASCII characters that is no longer than
    [maxLength], [encodeMessage] returns 4 + length bytes: the first four
    are the length, least significant byte first, and the rest reads back
    (as UTF-8 text) to the message itself. A longer ASCII message is cut to
    its first [maxLength] characters. *)
Theorem encodeMessage_round_trip (message : JSString) (maxLength : nat) :
  Forall (fun c => 0 <= c < 128) message ->
  Z.of_nat maxLength < 2 ^ 32 ->
  exists b,
    encodeMessage message maxLength = Ok b
    /\ length b = (4 + Nat.min maxLength (length message))%nat
    /\ foldr (fun x acc => acc * 256 + x) 0 (firstn 4 b)
       = Z.of_nat (Nat.min maxLength (length message))
    /\ Buffer_toString (skipn 4 b) = firstn maxLength message
    /\ ((length message <= maxLength)%nat ->
        Buffer_toString (skipn 4 b) = message).
Proof.
  intros Hascii Hmax.
  assert (Hcut : Forall (fun c => 0 <= c < 128) (firstn maxLength message)).
  { apply Forall_take. exact Hascii. }
  unfold encodeMessage, slice0, Buffer_from. cbv zeta.
  rewrite (utf8_encode_ascii _ Hcut).
  assert (Hlen : length (firstn maxLength message)
                 = Nat.min maxLength (length message)) by apply length_firstn.
  unfold writeUInt32LE.
  replace ((0 <=? Z.of_nat (length (firstn maxLength message)))
           && (Z.of_nat (length (firstn maxLength message)) <? 2 ^ 32)) with true.
  2:{ symmetry. apply andb_true_iff. split; [apply Z.leb_le|apply Z.ltb_lt]; lia. }
  rewrite bind_Ok. eexists. split; [reflexivity|].
  assert (H4 : length (BN.le_bytes 4 (Z.of_nat (length (firstn maxLength message))))
               = 4%nat) by apply length_le_bytes.
  split; [rewrite length_app, H4, Hlen; reflexivity|].
  split.
  - rewrite firstn_app, H4. change (4 - 4)%nat with 0%nat.
    rewrite firstn_O, app_nil_r, firstn_all2 by lia.
    rewrite le_bytes_value, Hlen. apply Z.mod_small. lia.
  - assert (Hskip : skipn 4 (BN.le_bytes 4 (Z.of_nat (length (firstn maxLength message)))
                             ++ firstn maxLength message)
                    = firstn maxLength message).
    { rewrite skipn_app, H4. change (4 - 4)%nat with 0%nat.
      rewrite skipn_all2 by lia. reflexivity. }
    rewrite Hskip, (utf8_decode_ascii _ Hcut).
    split; [reflexivity|]. intros Hshort. now apply firstn_all2.
Qed.

Lemma encodeMessage_round_trip_witness :
  exists b,
    encodeMessage (js "thanks") 200 = Ok b
    /\ length b = (4 + Nat.min 200 (length (js "thanks")))%nat
    /\ foldr (fun x acc => acc * 256 + x) 0 (firstn 4 b)
       = Z.of_nat (Nat.min 200 (length (js "thanks")))
    /\ Buffer_toString (skipn 4 b) = firstn 200 (js "thanks")
    /\ ((length (js "thanks") <= 200)%nat ->
        Buffer_toString (skipn 4 b) = js "thanks").
Proof.
  apply (encodeMessage_round_trip (js "thanks") 200).
  - vm_compute. repeat constructor; discriminate.
  - lia.
Defined.
